(** * A development-time bridge server: resources and tools

    Shallow embedding of [src/main.py]: the three capability handlers
    [handle_list_resources], [handle_read_resource] and [handle_call_tool],
    written against the interfaces of the collaborators they call (file
    system, database, cache, tabular engine), followed by the properties the
    specification states about them. *)

From Stdlib Require Import Strings.String Strings.Ascii Strings.Byte List ZArith Lia Bool.
From stdpp Require Import base option list strings gmap pretty.

Set Warnings "-register-all".


(** ** Python [str] operations used by the handlers *)

Module Str.

(** [s.startswith(pre)]. *)
Definition startswith (pre s : string) : bool := String.prefix pre s.

(** [s[n:]]. *)
Fixpoint drop (n : nat) (s : string) : string :=
  match n, s with
  | 0, _ => s
  | S _, EmptyString => EmptyString
  | S n', String _ s' => drop n' s'
  end.

(** [sep.join(l)]. *)
Fixpoint join (sep : string) (l : list string) : string :=
  match l with
  | [] => ""
  | [x] => x
  | x :: rest => x +:+ sep +:+ join sep rest
  end.

(** [s.split(c)] for a one-character separator: never the empty list. *)
Fixpoint split (c : ascii) (s : string) : list string :=
  match s with
  | EmptyString => [""]
  | String a s' =>
      if Ascii.eqb a c then "" :: split c s'
      else match split c s' with
           | [] => [String a ""]
           | w :: ws => String a w :: ws
           end
  end.

(** [c in s]. *)
Fixpoint contains_char (c : ascii) (s : string) : bool :=
  match s with
  | EmptyString => false
  | String a s' => Ascii.eqb a c || contains_char c s'
  end.

(** [s.lstrip(c)] and the number of characters it removes,
    [len(s) - len(s.lstrip(c))]. *)
Fixpoint lstrip (c : ascii) (s : string) : string :=
  match s with
  | String a s' => if Ascii.eqb a c then lstrip c s' else s
  | EmptyString => EmptyString
  end.

Fixpoint leading (c : ascii) (s : string) : nat :=
  match s with
  | String a s' => if Ascii.eqb a c then S (leading c s') else 0
  | EmptyString => 0
  end.

(** [s.rfind(c)]: the index of the last occurrence, if any. *)
Fixpoint rfind (c : ascii) (s : string) : option nat :=
  match s with
  | EmptyString => None
  | String a s' =>
      match rfind c s' with
      | Some i => Some (S i)
      | None => if Ascii.eqb a c then Some 0 else None
      end
  end.

(** [s.lower()] on the ASCII letters. *)
Definition lower_char (a : ascii) : ascii :=
  let n := nat_of_ascii a in
  if (65 <=? n) && (n <=? 90) then ascii_of_nat (n + 32) else a.

Fixpoint lower (s : string) : string :=
  match s with
  | EmptyString => EmptyString
  | String a s' => String (lower_char a) (lower s')
  end.

(** Padding of the format specifications [{x:9}] (a string, left-aligned)
    and [{x:>10}] (right-aligned). *)
Fixpoint spaces (n : nat) : string :=
  match n with 0 => "" | S n' => String " " (spaces n') end.

Definition ljust (w : nat) (s : string) : string := s +:+ spaces (w - String.length s).
Definition rjust (w : nat) (s : string) : string := spaces (w - String.length s) +:+ s.

(** [x in s]: [x] occurs in [s] as a substring. *)
Definition occurs_in (x s : string) : Prop := exists pre post, s = pre +:+ x +:+ post.

End Str.

(** ** Text-mode file objects

    [open(path, 'w')] and [open(path, 'r')] with the default [newline=None]:
    on writing every line feed becomes [os.linesep]; on reading, universal
    newlines turn each CR LF pair and each lone CR into a line feed. The
    sandbox root [/app/data] is a POSIX path, so [os.linesep] is a line
    feed. *)

Module TextIO.

Definition LF : ascii := "010"%char.
Definition CR : ascii := "013"%char.

Definition linesep : string := String LF "".

Fixpoint translate_out (s : string) : string :=
  match s with
  | EmptyString => EmptyString
  | String a s' =>
      if Ascii.eqb a LF then linesep +:+ translate_out s'
      else String a (translate_out s')
  end.

Fixpoint universal_newlines (s : string) : string :=
  match s with
  | EmptyString => EmptyString
  | String a s' =>
      if Ascii.eqb a CR then
        match s' with
        | String b s'' =>
            if Ascii.eqb b LF then String LF (universal_newlines s'')
            else String LF (universal_newlines s')
        | EmptyString => String LF EmptyString
        end
      else String a (universal_newlines s')
  end.

End TextIO.

(** ** [pathlib.PurePosixPath] *)

Module pathlib.

Definition sep : ascii := "/"%char.

(** A parsed path: its root ([""], ["/"] or ["//"]) and its name components
    (pathlib's [parts] without the root). *)
Record Path := mkPath { root : string; names : list string }.

(** [_PosixFlavour.splitroot]: exactly two leading slashes are kept as the
    root ["//"], any other positive number collapses to ["/"]. *)
Definition splitroot (part : string) : string * string :=
  match Str.leading sep part with
  | 0 => ("", part)
  | 2 => ("//", Str.lstrip sep part)
  | _ => ("/", Str.lstrip sep part)
  end.

(** The components that survive parsing: [if x and x != '.']. *)
Definition keep_part (x : string) : bool :=
  negb (String.eqb x "") && negb (String.eqb x ".").

(** [Path(s)]. *)
Definition of_str (s : string) : Path :=
  let '(r, rel) := splitroot s in
  mkPath r (List.filter keep_part (Str.split sep rel)).

(** [str(p)]. *)
Definition str (p : Path) : string :=
  match root p, names p with
  | EmptyString, [] => "."
  | r, ns => r +:+ Str.join "/" ns
  end.

(** [p / s] for a string [s]: an anchored right operand replaces the left. *)
Definition joinpath (p : Path) (s : string) : Path :=
  let q := of_str s in
  if String.eqb (root q) "" then mkPath (root p) (names p ++ names q) else q.

(** [p.parent]. *)
Definition parent (p : Path) : Path := mkPath (root p) (removelast (names p)).

(** [p.name]. *)
Definition name (p : Path) : string := List.last (names p) "".

(** [p.suffix]: from the last dot of the name, unless that dot starts or
    ends the name. *)
Definition suffix (p : Path) : string :=
  let n := name p in
  match Str.rfind "."%char n with
  | Some i => if (0 <? i) && (i <? String.length n - 1) then Str.drop i n else ""
  | None => ""
  end.

(** The list [pre] is a prefix of [l]. *)
Fixpoint is_prefix (pre l : list string) : bool :=
  match pre, l with
  | [], _ => true
  | x :: pre', y :: l' => String.eqb x y && is_prefix pre' l'
  | _ :: _, [] => false
  end.

(** [p.relative_to(base)]: [None] stands for the [ValueError] pathlib raises
    when [p] is not below [base]. *)
Definition relative_to (p base : Path) : option Path :=
  if String.eqb (root p) (root base) && is_prefix (names base) (names p)
  then Some (mkPath "" (List.skipn (length (names base)) (names p)))
  else None.

(** The paths parsing produces. *)
Definition valid_name (x : string) : Prop :=
  keep_part x = true /\ Str.contains_char sep x = false.

Definition wf (p : Path) : Prop :=
  (root p = "" \/ root p = "/" \/ root p = "//") /\ Forall valid_name (names p).

End pathlib.

Import pathlib.

(** ** Values, exceptions and protocol records *)

(** The values the handlers receive in [arguments] and get back from the
    database: JSON-like data, and [VObject cls s] for any other object (a
    [Decimal], a [datetime], ...), known by its class name and its [str()].
    Floating-point numbers are left out. *)
Inductive value :=
| VNone
| VBool (b : bool)
| VInt (z : Z)
| VStr (s : string)
| VList (l : list value)
| VDict (d : list (string * value))
| VObject (cls s : string).

(** [type(v).__name__]. *)
Definition type_name (v : value) : string :=
  match v with
  | VNone => "NoneType"
  | VBool _ => "bool"
  | VInt _ => "int"
  | VStr _ => "str"
  | VList _ => "list"
  | VDict _ => "dict"
  | VObject cls _ => cls
  end.

(** [v == s] for a string literal [s]. *)
Definition eq_str (v : value) (s : string) : bool :=
  match v with
  | VStr t => String.eqb t s
  | _ => false
  end.

(** [d[k] = v] on an insertion-ordered [dict]: an existing key keeps its
    position and takes the new value. *)
Fixpoint dict_set (k : string) (v : value) (d : list (string * value)) : list (string * value) :=
  match d with
  | [] => [(k, v)]
  | (k', v') :: d' => if String.eqb k' k then (k, v) :: d' else (k', v') :: dict_set k v d'
  end.

Definition dict_of_pairs (l : list (string * value)) : list (string * value) :=
  fold_left (fun d kv => dict_set (fst kv) (snd kv) d) l [].

Definition dict_keys (d : list (string * value)) : list string := map fst d.

(** An exception raised inside a collaborator: its class and its message. *)
Record backend_exn := BackendExn { be_class : string; be_msg : string }.

(** The exceptions a handler can end with. [UnknownTool], [UnsupportedScheme]
    and [NotFound] are the three [ValueError]s the handlers raise themselves
    (lines 354, 127 and 105); [KeyError] comes from [arguments[key]];
    [TypeError] from an operand of the wrong type; [UnboundLocalError] from
    reading a local that was never assigned; [BackendFailure] is whatever a
    collaborator raised. *)
Inductive exn :=
| UnknownTool (name : string)
| UnsupportedScheme (uri : string)
| NotFound (path : string)
| ValueError (msg : string)
| KeyError (key : string)
| TypeError (msg : string)
| UnboundLocalError (msg : string)
| BackendFailure (e : backend_exn).

(** [type(e).__name__] and [str(e)]. *)
Definition exn_class (e : exn) : string :=
  match e with
  | UnknownTool _ | UnsupportedScheme _ | NotFound _ | ValueError _ => "ValueError"
  | KeyError _ => "KeyError"
  | TypeError _ => "TypeError"
  | UnboundLocalError _ => "UnboundLocalError"
  | BackendFailure e => be_class e
  end.

Definition exn_str (e : exn) : string :=
  match e with
  | UnknownTool name => "Unknown tool: " +:+ name
  | UnsupportedScheme uri => "Unsupported URI scheme: " +:+ uri
  | NotFound path => "File not found: " +:+ path
  | ValueError msg => msg
  | KeyError key => "'" +:+ key +:+ "'"
  | TypeError msg => msg
  | UnboundLocalError msg => msg
  | BackendFailure e => be_msg e
  end.

(** [mcp.types.Resource] and [mcp.types.TextContent]. *)
Record Resource := mkResource {
  uri : string;
  res_name : string;
  description : string;
  mimeType : string
}.

Record TextContent := mkTextContent { text : string }.

(** A database cursor after [execute]: [cur.description] (the column names,
    [None] when the statement returns no result set), the rows [fetchall]
    yields, and [cur.rowcount]. *)
Record Cursor := mkCursor {
  cur_description : option (list string);
  cur_rows : list (list value);
  cur_rowcount : Z
}.

(** Truth value of [cur.description]: [None] and the empty tuple are false. *)
Definition description_truthy (c : Cursor) : bool :=
  match cur_description c with
  | Some (_ :: _) => true
  | _ => false
  end.

Definition cursor_columns (c : Cursor) : list string :=
  default [] (cur_description c).

(** A [RealDictCursor] row: the column names mapped to the row's values. *)
Definition real_dict_row (cols : list string) (vals : list value) : list (string * value) :=
  dict_of_pairs (combine cols vals).

(** [[dict(row) for row in cur.fetchall()]] under a [RealDictCursor]. *)
Definition fetchall_dicts (c : Cursor) : list value :=
  map (fun vals => VDict (real_dict_row (cursor_columns c) vals)) (cur_rows c).

(** [cur.fetchall()] where nothing guards it: psycopg2 raises
    [ProgrammingError] when the statement executed last left no result set,
    which is when [cur.description] is [None]. *)
Definition fetchall (c : Cursor) : backend_exn + list value :=
  match cur_description c with
  | Some _ => inr (fetchall_dicts c)
  | None => inl (BackendExn "ProgrammingError" "no results to fetch")
  end.

Definition cursor_wf (c : Cursor) : Prop :=
  Forall (fun vals => length vals = length (cursor_columns c)) (cur_rows c).

(** ** The collaborators

    The handlers reach the file system, the database, the cache and the
    tabular engine only through the calls below. Each collaborator is a state
    with operations on it; an operation that can raise returns
    [backend_exn + _]. The equations at the end of each group are the part of
    the collaborator's contract the properties rely on. *)

Class Collaborators := {
  (** *** The Python runtime *)
  (** [str(v)], as an f-string formats a value. *)
  py_str : value -> string;
  py_str_VStr : forall s, py_str (VStr s) = s;
  py_str_VInt : forall z, py_str (VInt z) = pretty z;
  (** [json.dumps(v, indent=2, default=str)]. *)
  json_dumps : value -> string;
  (** The interpreter's message for an unassigned local variable. *)
  unbound_local_msg : string -> string;
  (** The codec of text-mode files (the locale's encoding, strict errors). *)
  encode : string -> backend_exn + list byte;
  decode : list byte -> backend_exn + string;
  decode_encode : forall s b, encode s = inr b -> decode b = inr s;

  (** *** The file system *)
  FS : Type;
  (** [p.exists()], [p.is_file()], [p.is_dir()], [p.stat().st_size]. The
      queries answer: a query that itself ends with an [OSError] (a name too
      long for the file system, a directory that may not be searched) is
      outside this model, so what is proved of a handler that starts with
      such a query is proved of the runs in which the query answers. *)
  fs_exists : Path -> FS -> bool;
  fs_is_file : Path -> FS -> bool;
  fs_is_dir : Path -> FS -> bool;
  fs_size : Path -> FS -> Z;
  (** [p.rglob("*")]: every entry below [p], by its components relative to
      [p]; [p.iterdir()]: the names of the children of [p]. *)
  fs_rglob : Path -> FS -> list (list string);
  fs_iterdir : Path -> FS -> backend_exn + list string;
  (** [p.mkdir(parents=True, exist_ok=True)]. *)
  fs_mkdir_parents : Path -> FS -> backend_exn + FS;
  (** Opening [p] for writing (created or truncated), writing the bytes and
      closing; opening [p] for reading and reading it whole. *)
  fs_write : Path -> list byte -> FS -> backend_exn + FS;
  fs_read : Path -> FS -> backend_exn + list byte;
  fs_write_read : forall p d s s', fs_write p d s = inr s' -> fs_read p s' = inr d;
  fs_write_exists : forall p d s s', fs_write p d s = inr s' -> fs_exists p s' = true;
  fs_mkdir_is_dir : forall p s s', fs_mkdir_parents p s = inr s' -> fs_is_dir p s' = true;
  fs_write_is_dir : forall p d q s s',
    fs_write p d s = inr s' -> fs_is_dir q s = true -> fs_is_dir q s' = true;

  (** *** The database *)
  DB : Type;
  Conn : Type;
  (** [psycopg2.connect(DATABASE_URL)]. *)
  db_connect : DB -> backend_exn + Conn;
  (** [cur.execute(<the information_schema.tables query>); cur.fetchall()]:
      the [(table_name, table_type)] pairs of the public schema. *)
  db_tables : Conn -> backend_exn + list (string * string);
  (** [cur.execute(query, parameters)]. *)
  db_execute : value -> value -> Conn -> backend_exn + (Cursor * Conn);
  (** [conn.commit()]. *)
  db_commit : Conn -> backend_exn + Conn;
  (** [conn.close()]: the database as the closed session leaves it. *)
  db_close : Conn -> DB;
  db_execute_wf : forall q ps c cur c', db_execute q ps c = inr (cur, c') -> cursor_wf cur;

  (** *** The cache *)
  Cache : Type;
  (** [redis_client.get(name)] and [redis_client.setex(name, time, value)]. *)
  redis_get : value -> Cache -> backend_exn + option string;
  redis_setex : value -> value -> value -> Cache -> backend_exn + Cache;

  (** *** The tabular engine *)
  DataFrame : Type;
  (** [pd.read_csv(p)]. *)
  pd_read_csv : Path -> FS -> backend_exn + DataFrame;
  (** [df.shape], [str(list(df.columns))], [str(df.dtypes)]. *)
  df_shape : DataFrame -> nat * nat;
  df_columns_str : DataFrame -> string;
  df_dtypes_str : DataFrame -> string;
  (** [df.head(n).to_string()], [df.info(buf=buffer); buffer.getvalue()],
      [df.describe().to_string()]. *)
  df_head_to_string : nat -> DataFrame -> backend_exn + string;
  df_info : DataFrame -> backend_exn + string;
  df_describe_to_string : DataFrame -> backend_exn + string
}.

(** ** The handlers *)

Section Handlers.

Context {C : Collaborators}.

(** What a handler can read and change: the three stateful collaborators and
    the records handed to [logger]. *)
Record World := mkWorld {
  w_fs : FS;
  w_db : DB;
  w_cache : Cache;
  w_log : list (string * string)
}.

(** A handler run: from a world to a value or a raised exception, and the
    world it leaves. *)
Definition M (A : Type) : Type := World -> (exn + A) * World.

Definition ret {A} (a : A) : M A := fun w => (inr a, w).

Definition raise {A} (e : exn) : M A := fun w => (inl e, w).

Definition bind {A B} (m : M A) (k : A -> M B) : M B :=
  fun w =>
    match m w with
    | (inr a, w') => k a w'
    | (inl e, w') => (inl e, w')
    end.

(** [try: m  except Exception as e: h e]. *)
Definition try_except {A} (m : M A) (h : exn -> M A) : M A :=
  fun w =>
    match m w with
    | (inr a, w') => (inr a, w')
    | (inl e, w') => h e w'
    end.

(** [try: m  finally: fin]. *)
Definition try_finally {A} (m : M A) (fin : M unit) : M A :=
  fun w =>
    match m w with
    | (r, w') =>
        match fin w' with
        | (inr _, w'') => (r, w'')
        | (inl e, w'') => (inl e, w'')
        end
    end.

(** The world with one component replaced. *)
Definition with_fs (w : World) (s : FS) : World :=
  mkWorld s (w_db w) (w_cache w) (w_log w).

Definition with_db (w : World) (d : DB) : World :=
  mkWorld (w_fs w) d (w_cache w) (w_log w).

Definition with_cache (w : World) (c : Cache) : World :=
  mkWorld (w_fs w) (w_db w) c (w_log w).

Definition with_log (w : World) (entry : string * string) : World :=
  mkWorld (w_fs w) (w_db w) (w_cache w) (w_log w ++ [entry]).

Definition get_world : M World := fun w => (inr w, w).

Definition put_fs (s : FS) : M unit := fun w => (inr tt, with_fs w s).
Definition put_db (d : DB) : M unit := fun w => (inr tt, with_db w d).
Definition put_cache (c : Cache) : M unit := fun w => (inr tt, with_cache w c).

(** [logger.warning(msg)]. *)
Definition log_warning (msg : string) : M unit :=
  fun w => (inr tt, with_log w ("WARNING", msg)).

(** The outcome of a collaborator's call, an exception of the collaborator
    becoming a [BackendFailure]. *)
Definition backend {A} (r : backend_exn + A) : M A :=
  match r with
  | inr a => ret a
  | inl e => raise (BackendFailure e)
  end.

End Handlers.

Declare Scope handler_scope.
Delimit Scope handler_scope with handler.
Notation "x <- m ;; k" := (bind m (fun x => k))
  (at level 100, m at next level, right associativity) : handler_scope.
Notation "m ;; k" := (bind m (fun _ => k))
  (at level 100, right associativity) : handler_scope.

Local Open Scope handler_scope.

Section Server.

Context {C : Collaborators}.

(** [DATA_DIR = Path("/app/data")] (line 32). *)
Definition DATA_DIR : Path := of_str "/app/data".

(** The path object [rglob] and [iterdir] yield for an entry of [p]. *)
Definition child (p : Path) (rel : list string) : Path :=
  mkPath (root p) (names p ++ rel).

Definition nl : string := String "010"%char "".

(** [for x in l: acc = body x acc]. *)
Fixpoint for_each {A S : Type} (l : list A) (body : A -> S -> M S) (acc : S) : M S :=
  match l with
  | [] => ret acc
  | x :: l' => acc' <- body x acc ;; for_each l' body acc'
  end.

(** [DATA_DIR / v]: a string operand is parsed and joined, any other value
    is a [TypeError]. *)
Definition truediv (p : Path) (v : value) : M Path :=
  match v with
  | VStr s => ret (joinpath p s)
  | _ => raise (TypeError ("unsupported operand type(s) for /: 'PosixPath' and '"
                            +:+ type_name v +:+ "'"))
  end.

(** [async with aiofiles.open(p, 'w') as f: await f.write(content)]. The
    file is created or truncated when it is opened; a [content] that is not
    a string, or that the codec cannot encode, raises after that. *)
Definition write_text (p : Path) (content : value) : M unit :=
  w <- get_world ;;
  match content with
  | VStr c =>
      match encode (TextIO.translate_out c) with
      | inr data => s <- backend (fs_write p data (w_fs w)) ;; put_fs s
      | inl e => s <- backend (fs_write p [] (w_fs w)) ;; put_fs s ;; raise (BackendFailure e)
      end
  | _ =>
      s <- backend (fs_write p [] (w_fs w)) ;; put_fs s ;;
      raise (TypeError ("write() argument must be str, not " +:+ type_name content))
  end.

(** [async with aiofiles.open(p, 'r') as f: content = await f.read()]. *)
Definition read_text (p : Path) : M string :=
  w <- get_world ;;
  data <- backend (fs_read p (w_fs w)) ;;
  s <- backend (decode data) ;;
  ret (TextIO.universal_newlines s).

(** *** [handle_list_resources] (lines 58-97) *)

Definition text_suffixes : list string := [".txt"; ".csv"; ".json"].

Definition mime_of (p : Path) : string :=
  if existsb (String.eqb (suffix p)) text_suffixes
  then "text/plain" else "application/octet-stream".

(** Lines 67-72. The [uri] is the text the handler builds; the URL type of
    the descriptor keeps it as written when the names consist of letters,
    digits, [-], [.] and [_]. *)
Definition file_resource (file_path : Path) : M Resource :=
  match relative_to file_path DATA_DIR with
  | Some rel =>
      ret (mkResource ("file://" +:+ str file_path) (name file_path)
             ("File: " +:+ str rel) (mime_of file_path))
  | None =>
      raise (ValueError ("'" +:+ str file_path +:+ "' is not in the subpath of '"
                          +:+ str DATA_DIR +:+ "'"))
  end.

Definition table_resource (row : string * string) : Resource :=
  let '(table_name, table_type) := row in
  mkResource ("db://table/" +:+ table_name) table_name
    ("Database " +:+ Str.lower table_type +:+ ": " +:+ table_name)
    "application/x-sql".

(** Lines 63-72: the files below the sandbox root. *)
Definition list_file_resources : M (list Resource) :=
  w <- get_world ;;
  if fs_exists DATA_DIR (w_fs w) then
    for_each (fs_rglob DATA_DIR (w_fs w))
      (fun rel resources =>
         let file_path := child DATA_DIR rel in
         if fs_is_file file_path (w_fs w)
         then r <- file_resource file_path ;; ret (resources ++ [r])
         else ret resources)
      []
  else ret [].

(** Lines 76-93: the body of the [try], extending [resources]. *)
Definition list_table_resources (resources : list Resource) : M (list Resource) :=
  w <- get_world ;;
  conn <- backend (db_connect (w_db w)) ;;
  tables <- backend (db_tables conn) ;;
  put_db (db_close conn) ;;
  ret (resources ++ map table_resource tables).

Definition handle_list_resources : M (list Resource) :=
  resources <- list_file_resources ;;
  try_except (list_table_resources resources)
    (fun e =>
       log_warning ("Could not list database tables: " +:+ exn_str e) ;;
       ret resources).

(** *** [handle_read_resource] (lines 99-127) *)

Definition select_all (table_name : string) : string :=
  "SELECT * FROM " +:+ table_name +:+ " LIMIT 100".

Definition read_file_resource (uri : string) : M string :=
  let file_path := of_str (Str.drop 7 uri) in
  w <- get_world ;;
  if negb (fs_exists file_path (w_fs w)) then raise (NotFound (str file_path))
  else read_text file_path.

Definition read_table_resource (uri : string) : M string :=
  let table_name := Str.drop 11 uri in
  w <- get_world ;;
  conn <- backend (db_connect (w_db w)) ;;
  match db_execute (VStr (select_all table_name)) VNone conn with
  | inr (cur, conn') =>
      match fetchall cur with
      | inr rows =>
          let result := json_dumps (VList rows) in
          put_db (db_close conn') ;;
          ret result
      | inl e =>
          put_db (db_close conn') ;;
          raise (BackendFailure e)
      end
  | inl e =>
      put_db (db_close conn) ;;
      raise (BackendFailure e)
  end.

Definition handle_read_resource (uri : string) : M string :=
  if Str.startswith "file://" uri then read_file_resource uri
  else if Str.startswith "db://table/" uri then read_table_resource uri
  else raise (UnsupportedScheme uri).

(** *** [handle_call_tool] (lines 243-354) *)

(** [arguments[key]] and [arguments.get(key, dflt)]. *)
Definition arg (arguments : gmap string value) (key : string) : M value :=
  match arguments !! key with
  | Some v => ret v
  | None => raise (KeyError key)
  end.

Definition arg_get (arguments : gmap string value) (key : string) (dflt : value) : value :=
  default dflt (arguments !! key).

Definition one_text (t : string) : list TextContent := [mkTextContent t].

(** Lines 247-260. *)
Definition tool_write_file (arguments : gmap string value) : M (list TextContent) :=
  path <- arg arguments "path" ;;
  content <- arg arguments "content" ;;
  file_path <- truediv DATA_DIR path ;;
  w <- get_world ;;
  s <- backend (fs_mkdir_parents (parent file_path) (w_fs w)) ;;
  put_fs s ;;
  write_text file_path content ;;
  match content with
  | VStr c =>
      ret (one_text ("Successfully wrote " +:+ pretty (String.length c)
                       +:+ " characters to " +:+ py_str path))
  | _ => raise (TypeError ("object of type '" +:+ type_name content +:+ "' has no len()"))
  end.

(** Lines 262-284. Every path out of the [try] runs [conn.close()]. *)
Definition tool_execute_sql (arguments : gmap string value) : M (list TextContent) :=
  query <- arg arguments "query" ;;
  let parameters := arg_get arguments "parameters" (VList []) in
  w <- get_world ;;
  conn <- backend (db_connect (w_db w)) ;;
  match db_execute query parameters conn with
  | inr (cur, conn1) =>
      if description_truthy cur then
        let result := json_dumps (VList (fetchall_dicts cur)) in
        put_db (db_close conn1) ;;
        ret (one_text result)
      else
        match db_commit conn1 with
        | inr conn2 =>
            let result := "Query executed successfully. Rows affected: "
                            +:+ pretty (cur_rowcount cur) in
            put_db (db_close conn2) ;;
            ret (one_text result)
        | inl e => put_db (db_close conn1) ;; raise (BackendFailure e)
        end
  | inl e => put_db (db_close conn) ;; raise (BackendFailure e)
  end.

(** Lines 286-295. *)
Definition tool_cache_set (arguments : gmap string value) : M (list TextContent) :=
  key <- arg arguments "key" ;;
  value <- arg arguments "value" ;;
  let ttl := arg_get arguments "ttl" (VInt 3600) in
  w <- get_world ;;
  c <- backend (redis_setex key ttl value (w_cache w)) ;;
  put_cache c ;;
  ret (one_text ("Set cache key '" +:+ py_str key +:+ "' with TTL "
                   +:+ py_str ttl +:+ " seconds")).

(** Lines 297-304. *)
Definition tool_cache_get (arguments : gmap string value) : M (list TextContent) :=
  key <- arg arguments "key" ;;
  w <- get_world ;;
  value <- backend (redis_get key (w_cache w)) ;;
  match value with
  | None => ret (one_text ("Cache key '" +:+ py_str key +:+ "' not found"))
  | Some v => ret (one_text ("Cache value for '" +:+ py_str key +:+ "': " +:+ v))
  end.

(** Lines 306-320. *)
Definition directory_line (fs : FS) (item : Path) : string :=
  let item_type := if fs_is_dir item fs then "directory" else "file" in
  let size := if fs_is_file item fs then pretty (fs_size item fs) else "-" in
  Str.ljust 9 item_type +:+ " " +:+ Str.rjust 10 size +:+ " " +:+ name item.

Definition tool_list_directory (arguments : gmap string value) : M (list TextContent) :=
  let path := arg_get arguments "path" (VStr ".") in
  dir_path <- truediv DATA_DIR path ;;
  w <- get_world ;;
  if negb (fs_exists dir_path (w_fs w)) then
    ret (one_text ("Directory not found: " +:+ py_str path))
  else
    children <- backend (fs_iterdir dir_path (w_fs w)) ;;
    let items := map (fun n => directory_line (w_fs w) (child dir_path [n])) children in
    let result := Str.join nl (["Type      Size       Name"]
                                 ++ ["------------------------------"] ++ items) in
    ret (one_text result).

(** Lines 322-351. [result] is [None] while the local variable is
    unassigned; reading it then raises [UnboundLocalError] inside the [try]. *)
Definition shape_str (sh : nat * nat) : string :=
  "(" +:+ pretty (fst sh) +:+ ", " +:+ pretty (snd sh) +:+ ")".

Definition analysis (file_path analysis_type : value) (df : DataFrame) : M (option string) :=
  if eq_str analysis_type "summary" then
    ret (Some ("Dataset Summary for " +:+ py_str file_path +:+ ":" +:+ nl
                 +:+ "Shape: " +:+ shape_str (df_shape df) +:+ nl
                 +:+ "Columns: " +:+ df_columns_str df +:+ nl
                 +:+ "Data types:" +:+ nl +:+ df_dtypes_str df))
  else if eq_str analysis_type "head" then
    t <- backend (df_head_to_string 10 df) ;;
    ret (Some ("First 10 rows of " +:+ py_str file_path +:+ ":" +:+ nl +:+ t))
  else if eq_str analysis_type "info" then
    t <- backend (df_info df) ;;
    ret (Some ("Dataset info for " +:+ py_str file_path +:+ ":" +:+ nl +:+ t))
  else if eq_str analysis_type "describe" then
    t <- backend (df_describe_to_string df) ;;
    ret (Some ("Statistical summary for " +:+ py_str file_path +:+ ":" +:+ nl +:+ t))
  else ret None.

Definition tool_analyze_data (arguments : gmap string value) : M (list TextContent) :=
  file_path <- arg arguments "file_path" ;;
  let analysis_type := arg_get arguments "analysis_type" (VStr "summary") in
  full_path <- truediv DATA_DIR file_path ;;
  w <- get_world ;;
  if negb (fs_exists full_path (w_fs w)) then
    ret (one_text ("File not found: " +:+ py_str file_path))
  else
    try_except
      (df <- backend (pd_read_csv full_path (w_fs w)) ;;
       result <- analysis file_path analysis_type df ;;
       match result with
       | Some r => ret (one_text r)
       | None => raise (UnboundLocalError (unbound_local_msg "result"))
       end)
      (fun e => ret (one_text ("Error analyzing data: " +:+ exn_str e))).

(** The six names of the tool catalog (lines 129-241), in its order. *)
Definition tool_names : list string :=
  ["write_file"; "execute_sql"; "cache_set"; "cache_get"; "list_directory"; "analyze_data"].

Definition handle_call_tool (name : string) (arguments : gmap string value)
  : M (list TextContent) :=
  if String.eqb name "write_file" then tool_write_file arguments
  else if String.eqb name "execute_sql" then tool_execute_sql arguments
  else if String.eqb name "cache_set" then tool_cache_set arguments
  else if String.eqb name "cache_get" then tool_cache_get arguments
  else if String.eqb name "list_directory" then tool_list_directory arguments
  else if String.eqb name "analyze_data" then tool_analyze_data arguments
  else raise (UnknownTool name).

End Server.

(** *** [handle_list_tools] (lines 129-241) *)

(** [mcp.types.Tool]: the input schema is the dictionary the source writes,
    key for key and in its order. *)
Record Tool := mkTool {
  tool_name : string;
  tool_description : string;
  inputSchema : value
}.

Definition schema_string (description : string) : value :=
  VDict [("type", VStr "string"); ("description", VStr description)].

Definition handle_list_tools : list Tool :=
  [ mkTool "write_file" "Write content to a file in the data directory"
      (VDict [("type", VStr "object");
              ("properties",
               VDict [("path", schema_string "Relative path within the data directory");
                      ("content", schema_string "Content to write to the file")]);
              ("required", VList [VStr "path"; VStr "content"])]);
    mkTool "execute_sql" "Execute a SQL query against the PostgreSQL database"
      (VDict [("type", VStr "object");
              ("properties",
               VDict [("query", schema_string "SQL query to execute");
                      ("parameters",
                       VDict [("type", VStr "array");
                              ("description", VStr "Query parameters");
                              ("items", VDict [("type", VStr "string")])])]);
              ("required", VList [VStr "query"])]);
    mkTool "cache_set" "Set a value in Redis cache"
      (VDict [("type", VStr "object");
              ("properties",
               VDict [("key", schema_string "Cache key");
                      ("value", schema_string "Value to cache");
                      ("ttl",
                       VDict [("type", VStr "integer");
                              ("description", VStr "Time to live in seconds (optional)");
                              ("default", VInt 3600)])]);
              ("required", VList [VStr "key"; VStr "value"])]);
    mkTool "cache_get" "Get a value from Redis cache"
      (VDict [("type", VStr "object");
              ("properties", VDict [("key", schema_string "Cache key")]);
              ("required", VList [VStr "key"])]);
    mkTool "list_directory" "List contents of a directory"
      (VDict [("type", VStr "object");
              ("properties",
               VDict [("path",
                       VDict [("type", VStr "string");
                              ("description",
                               VStr "Directory path (relative to data directory)");
                              ("default", VStr ".")])])]);
    mkTool "analyze_data" "Perform basic analysis on CSV data files"
      (VDict [("type", VStr "object");
              ("properties",
               VDict [("file_path",
                       schema_string "Path to CSV file (relative to data directory)");
                      ("analysis_type",
                       VDict [("type", VStr "string");
                              ("enum", VList [VStr "summary"; VStr "head"; VStr "info";
                                              VStr "describe"]);
                              ("description", VStr "Type of analysis to perform");
                              ("default", VStr "summary")])]);
              ("required", VList [VStr "file_path"])]) ].

(** [d.get(k)] on a dictionary value. *)
Fixpoint dict_get (k : string) (d : list (string * value)) : option value :=
  match d with
  | [] => None
  | (k', v) :: d' => if String.eqb k' k then Some v else dict_get k d'
  end.

Definition schema_field (k : string) (schema : value) : option value :=
  match schema with
  | VDict d => dict_get k d
  | _ => None
  end.

(** What a schema declares: the names under [properties], the names listed
    under [required] (none when the key is absent), and the [default] of a
    property. *)
Definition schema_properties (t : Tool) : list string :=
  match schema_field "properties" (inputSchema t) with
  | Some (VDict d) => dict_keys d
  | _ => []
  end.

Definition schema_required (t : Tool) : list string :=
  match schema_field "required" (inputSchema t) with
  | Some (VList l) => flat_map (fun v => match v with VStr s => [s] | _ => [] end) l
  | _ => []
  end.

Definition schema_default (t : Tool) (k : string) : option value :=
  match schema_field "properties" (inputSchema t) with
  | Some (VDict d) =>
      match dict_get k d with
      | Some prop => schema_field "default" prop
      | None => None
      end
  | _ => None
  end.

(** ** Reference collaborators, in memory

    A small, executable implementation of the interface: a symlink-free file
    tree, the strict ASCII codec, a store of tables with one transaction per
    connection, a string-to-string cache and a comma-separated-values reader.
    The handlers can be run on it. *)

Module InMemory.

(** *** File tree *)

Inductive node := File (data : list byte) | Dir.

(** The entry a path names: its components from the root directory, a
    [".."] stepping back to the parent. Relative paths start at the root. *)
Fixpoint resolve (acc l : list string) : list string :=
  match l with
  | [] => acc
  | c :: l' =>
      if String.eqb c ".." then resolve (removelast acc) l' else resolve (acc ++ [c]) l'
  end.

Definition key (p : Path) : list string := resolve [] (names p).

(** The root directory always exists. *)
Definition node_at (k : list string) (s : gmap (list string) node) : option node :=
  match k with
  | [] => Some Dir
  | _ => s !! k
  end.

Definition exists_ (p : Path) (s : gmap (list string) node) : bool :=
  match node_at (key p) s with Some _ => true | None => false end.

Definition is_file (p : Path) (s : gmap (list string) node) : bool :=
  match node_at (key p) s with Some (File _) => true | _ => false end.

Definition is_dir (p : Path) (s : gmap (list string) node) : bool :=
  match node_at (key p) s with Some Dir => true | _ => false end.

Definition size (p : Path) (s : gmap (list string) node) : Z :=
  match node_at (key p) s with
  | Some (File d) => Z.of_nat (length d)
  | _ => 4096
  end.

Definition below (pre k : list string) : option (list string) :=
  if is_prefix pre k then Some (skipn (length pre) k) else None.

Definition rglob (p : Path) (s : gmap (list string) node) : list (list string) :=
  omap (fun kn => match below (key p) (fst kn) with
                  | Some (c :: r) => Some (c :: r)
                  | _ => None
                  end) (map_to_list s).

Definition iterdir (p : Path) (s : gmap (list string) node) : backend_exn + list string :=
  match node_at (key p) s with
  | Some Dir =>
      inr (omap (fun kn => match below (key p) (fst kn) with
                           | Some [c] => Some c
                           | _ => None
                           end) (map_to_list s))
  | Some (File _) => inl (BackendExn "NotADirectoryError" (str p))
  | None => inl (BackendExn "FileNotFoundError" (str p))
  end.

(** Creating the directories [done ++ [c1]], [done ++ [c1; c2]], ... *)
Fixpoint mkdir_all (done todo : list string) (s : gmap (list string) node)
  : backend_exn + gmap (list string) node :=
  match todo with
  | [] => inr s
  | c :: todo' =>
      let k := done ++ [c] in
      match node_at k s with
      | Some (File _) =>
          inl (BackendExn (match todo' with [] => "FileExistsError" | _ => "NotADirectoryError" end)
                 (Str.join "/" k))
      | _ => mkdir_all k todo' (<[k := Dir]> s)
      end
  end.

Definition mkdir_parents (p : Path) (s : gmap (list string) node)
  : backend_exn + gmap (list string) node :=
  mkdir_all [] (key p) s.

Definition write (p : Path) (data : list byte) (s : gmap (list string) node)
  : backend_exn + gmap (list string) node :=
  match key p with
  | [] => inl (BackendExn "IsADirectoryError" (str p))
  | k =>
      match node_at k s with
      | Some Dir => inl (BackendExn "IsADirectoryError" (str p))
      | _ =>
          match node_at (removelast k) s with
          | Some Dir => inr (<[k := File data]> s)
          | Some (File _) => inl (BackendExn "NotADirectoryError" (str p))
          | None => inl (BackendExn "FileNotFoundError" (str p))
          end
      end
  end.

Definition read (p : Path) (s : gmap (list string) node) : backend_exn + list byte :=
  match node_at (key p) s with
  | Some (File d) => inr d
  | Some Dir => inl (BackendExn "IsADirectoryError" (str p))
  | None => inl (BackendExn "FileNotFoundError" (str p))
  end.

Lemma write_inv p d s s' :
  write p d s = inr s' ->
  key p <> [] /\ node_at (key p) s <> Some Dir /\ s' = <[key p := File d]> s.
Proof.
  unfold write. destruct (key p) as [|c k] eqn:Hk; [discriminate|].
  intros H. split; [discriminate|].
  destruct (node_at (c :: k) s) as [[?|]|] eqn:Hn;
    destruct (node_at (removelast (c :: k)) s) as [[?|]|]; try discriminate;
    injection H as <-; split; congruence.
Qed.

Lemma node_at_insert k n s : k <> [] -> node_at k (<[k := n]> s) = Some n.
Proof. destruct k; [congruence|]. intros _. simpl. apply lookup_insert_eq. Qed.

Lemma node_at_insert_ne k k' n s : k <> k' -> node_at k' (<[k := n]> s) = node_at k' s.
Proof. intros Hne. destruct k'; [reflexivity|]. simpl. by apply lookup_insert_ne. Qed.

Lemma write_read p d s s' : write p d s = inr s' -> read p s' = inr d.
Proof.
  intros (Hk & _ & ->)%write_inv. unfold read. by rewrite node_at_insert.
Qed.

Lemma write_exists p d s s' : write p d s = inr s' -> exists_ p s' = true.
Proof.
  intros (Hk & _ & ->)%write_inv. unfold exists_. by rewrite node_at_insert.
Qed.

Lemma write_is_dir p d q s s' :
  write p d s = inr s' -> is_dir q s = true -> is_dir q s' = true.
Proof.
  intros (Hk & Hn & ->)%write_inv. unfold is_dir.
  destruct (decide (key p = key q)) as [Heq|Hne].
  - rewrite <- Heq. destruct (node_at (key p) s) as [[?|]|]; congruence.
  - by rewrite node_at_insert_ne.
Qed.

Lemma mkdir_all_is_dir todo : forall done s s',
  todo <> [] -> mkdir_all done todo s = inr s' -> node_at (done ++ todo) s' = Some Dir.
Proof.
  induction todo as [|c todo IH]; intros done s s' Hne H; [congruence|].
  simpl in H.
  assert (Hgo : mkdir_all (done ++ [c]) todo (<[done ++ [c] := Dir]> s) = inr s').
  { destruct (node_at (done ++ [c]) s) as [[?|]|]; [discriminate|exact H|exact H]. }
  destruct todo as [|c' todo'].
  - simpl in Hgo. injection Hgo as <-. apply node_at_insert. by destruct done.
  - replace (done ++ c :: c' :: todo') with ((done ++ [c]) ++ c' :: todo')
      by (by rewrite <- app_assoc).
    apply (IH _ _ _ ltac:(discriminate) Hgo).
Qed.

Lemma mkdir_is_dir p s s' : mkdir_parents p s = inr s' -> is_dir p s' = true.
Proof.
  unfold mkdir_parents, is_dir. destruct (key p) as [|c k] eqn:Hk.
  - reflexivity.
  - intros H. apply mkdir_all_is_dir in H; [|discriminate]. simpl in H. simpl. by rewrite H.
Qed.

(** *** Runtime: the strict ASCII codec, [str] and [json.dumps] *)

Definition is_ascii_byte (b : byte) : bool := (Byte.to_N b <? 128)%N.

Definition ascii_encode (s : string) : backend_exn + list byte :=
  let bs := list_byte_of_string s in
  if forallb is_ascii_byte bs then inr bs
  else inl (BackendExn "UnicodeEncodeError" "'ascii' codec can't encode character").

Definition ascii_decode (bs : list byte) : backend_exn + string :=
  if forallb is_ascii_byte bs then inr (string_of_list_byte bs)
  else inl (BackendExn "UnicodeDecodeError" "'ascii' codec can't decode byte").

Lemma ascii_decode_encode s b : ascii_encode s = inr b -> ascii_decode b = inr s.
Proof.
  unfold ascii_encode, ascii_decode.
  destruct (forallb is_ascii_byte (list_byte_of_string s)) eqn:Hall; [|discriminate].
  intros [= <-]. by rewrite Hall, string_of_list_byte_of_string.
Qed.

(** [repr] and [str], strings quoted without escapes. *)
Fixpoint repr (v : value) : string :=
  match v with
  | VNone => "None"
  | VBool true => "True"
  | VBool false => "False"
  | VInt z => pretty z
  | VStr s => "'" +:+ s +:+ "'"
  | VList l => "[" +:+ Str.join ", " (map repr l) +:+ "]"
  | VDict d =>
      "{" +:+ Str.join ", " (map (fun kv => "'" +:+ fst kv +:+ "': " +:+ repr (snd kv)) d) +:+ "}"
  | VObject _ s => s
  end.

Definition to_str (v : value) : string :=
  match v with
  | VStr s => s
  | _ => repr v
  end.

Definition dq : string := String "034"%char "".

(** JSON text with an indent of two; an object outside JSON goes through
    [str] ([default=str]); strings are quoted without escapes. *)
Fixpoint dumps (ind : nat) (v : value) : string :=
  match v with
  | VNone => "null"
  | VBool true => "true"
  | VBool false => "false"
  | VInt z => pretty z
  | VStr s => dq +:+ s +:+ dq
  | VObject _ s => dq +:+ s +:+ dq
  | VList [] => "[]"
  | VList l =>
      "[" +:+ nl
        +:+ Str.join ("," +:+ nl) (map (fun x => Str.spaces (ind + 2) +:+ dumps (ind + 2) x) l)
        +:+ nl +:+ Str.spaces ind +:+ "]"
  | VDict [] => "{}"
  | VDict d =>
      "{" +:+ nl
        +:+ Str.join ("," +:+ nl)
              (map (fun kv => Str.spaces (ind + 2) +:+ dq +:+ fst kv +:+ dq +:+ ": "
                                +:+ dumps (ind + 2) (snd kv)) d)
        +:+ nl +:+ Str.spaces ind +:+ "}"
  end.

(** *** Database: named tables, one transaction per connection *)

Record table := mkTable {
  t_name : string;
  t_type : string;
  t_cols : list string;
  t_rows : list (list value)
}.

Record database := mkDatabase { db_up : bool; db_tabs : list table }.

Record connection := mkConnection { committed : database; working : database }.

Definition connect (d : database) : backend_exn + connection :=
  if db_up d then inr (mkConnection d d)
  else inl (BackendExn "OperationalError" "could not connect to server").

Definition tables (c : connection) : backend_exn + list (string * string) :=
  inr (map (fun t => (t_name t, t_type t)) (db_tabs (working c))).

Definition delete_all (table_name : string) : string := "DELETE FROM " +:+ table_name.

Definition fitting (cols : list string) (rows : list (list value)) : list (list value) :=
  List.filter (fun r => Nat.eqb (length r) (length cols)) rows.

Definition clear_table (n : string) (t : table) : table :=
  if String.eqb (t_name t) n then mkTable (t_name t) (t_type t) (t_cols t) [] else t.

(** The statements understood: [SELECT * FROM t LIMIT 100] and
    [DELETE FROM t] for a table [t] of the store. *)
Definition execute (q ps : value) (c : connection) : backend_exn + (Cursor * connection) :=
  match q with
  | VStr s =>
      let tabs := db_tabs (working c) in
      match List.find (fun t => String.eqb (select_all (t_name t)) s) tabs with
      | Some t =>
          let rows := firstn 100 (fitting (t_cols t) (t_rows t)) in
          inr (mkCursor (Some (t_cols t)) rows (Z.of_nat (length rows)), c)
      | None =>
          match List.find (fun t => String.eqb (delete_all (t_name t)) s) tabs with
          | Some t =>
              inr (mkCursor None [] (Z.of_nat (length (t_rows t))),
                   mkConnection (committed c)
                     (mkDatabase (db_up (working c)) (map (clear_table (t_name t)) tabs)))
          | None => inl (BackendExn "ProgrammingError" ("syntax error at or near: " +:+ s))
          end
      end
  | _ => inl (BackendExn "TypeError" "argument 1 must be a string")
  end.

Definition commit (c : connection) : backend_exn + connection :=
  inr (mkConnection (working c) (working c)).

Definition close (c : connection) : database := committed c.

Lemma execute_wf q ps c cur c' : execute q ps c = inr (cur, c') -> cursor_wf cur.
Proof.
  unfold execute. destruct q; try discriminate.
  destruct (List.find _ _) as [t|].
  - intros [= <- <-]. unfold cursor_wf, cursor_columns. simpl.
    apply Forall_forall. intros r Hr.
    apply elem_of_take in Hr as (i & Hi & _).
    apply list_elem_of_lookup_2, list_elem_of_In, filter_In in Hi as [_ Hi].
    by apply Nat.eqb_eq.
  - destruct (List.find _ _) as [t|]; [|discriminate].
    intros [= <- <-]. constructor.
Qed.

(** *** Cache: strings under string keys *)

Definition redis_arg (v : value) : backend_exn + string :=
  match v with
  | VStr s => inr s
  | VInt z => inr (pretty z)
  | _ => inl (BackendExn "DataError" ("Invalid input of type: '" +:+ type_name v +:+ "'"))
  end.

Definition cache_get (key : value) (c : gmap string string) : backend_exn + option string :=
  match redis_arg key with
  | inr k => inr (c !! k)
  | inl e => inl e
  end.

Definition cache_setex (key time val : value) (c : gmap string string)
  : backend_exn + gmap string string :=
  match redis_arg key, redis_arg val, time with
  | inr k, inr v, VInt z =>
      if (0 <? z)%Z then inr (<[k := v]> c)
      else inl (BackendExn "ResponseError" "invalid expire time in 'setex' command")
  | inl e, _, _ => inl e
  | _, inl e, _ => inl e
  | _, _, _ => inl (BackendExn "ResponseError" "value is not an integer or out of range")
  end.

(** *** Tables of comma-separated values *)

Record frame := mkFrame { f_cols : list string; f_rows : list (list string) }.

Definition read_csv (p : Path) (s : gmap (list string) node) : backend_exn + frame :=
  match read p s with
  | inl e => inl e
  | inr data =>
      match ascii_decode data with
      | inl e => inl e
      | inr t =>
          match List.filter (fun l => negb (String.eqb l "")) (Str.split TextIO.LF t) with
          | [] => inl (BackendExn "EmptyDataError" "No columns to parse from file")
          | header :: lines =>
              inr (mkFrame (Str.split ","%char header) (map (Str.split ","%char) lines))
          end
      end
  end.

Definition frame_shape (f : frame) : nat * nat := (length (f_rows f), length (f_cols f)).

Definition frame_columns_str (f : frame) : string := repr (VList (map VStr (f_cols f))).

Definition frame_dtypes_str (f : frame) : string :=
  Str.join nl (map (fun c => c +:+ "    object") (f_cols f) ++ ["dtype: object"]).

Definition frame_to_string (f : frame) : string :=
  Str.join nl (map (Str.join "  ") (f_cols f :: f_rows f)).

Definition frame_head (n : nat) (f : frame) : backend_exn + string :=
  inr (frame_to_string (mkFrame (f_cols f) (firstn n (f_rows f)))).

Definition frame_info (f : frame) : backend_exn + string :=
  inr ("RangeIndex: " +:+ pretty (length (f_rows f)) +:+ " entries" +:+ nl
         +:+ "Data columns (total " +:+ pretty (length (f_cols f)) +:+ " columns)").

Definition frame_describe (f : frame) : backend_exn + string :=
  match f_cols f with
  | [] => inl (BackendExn "ValueError" "Cannot describe a DataFrame without columns")
  | _ => inr ("count  " +:+ pretty (length (f_rows f)))
  end.

(** *** The instance *)

Definition collaborators : Collaborators := {|
  py_str := to_str;
  py_str_VStr := fun _ => eq_refl;
  py_str_VInt := fun _ => eq_refl;
  json_dumps := dumps 0;
  unbound_local_msg := fun v =>
    "cannot access local variable '" +:+ v +:+ "' where it is not associated with a value";
  encode := ascii_encode;
  decode := ascii_decode;
  decode_encode := ascii_decode_encode;
  FS := gmap (list string) node;
  fs_exists := exists_;
  fs_is_file := is_file;
  fs_is_dir := is_dir;
  fs_size := size;
  fs_rglob := rglob;
  fs_iterdir := iterdir;
  fs_mkdir_parents := mkdir_parents;
  fs_write := write;
  fs_read := read;
  fs_write_read := write_read;
  fs_write_exists := write_exists;
  fs_mkdir_is_dir := mkdir_is_dir;
  fs_write_is_dir := write_is_dir;
  DB := database;
  Conn := connection;
  db_connect := connect;
  db_tables := tables;
  db_execute := execute;
  db_commit := commit;
  db_close := close;
  db_execute_wf := execute_wf;
  Cache := gmap string string;
  redis_get := cache_get;
  redis_setex := cache_setex;
  DataFrame := frame;
  pd_read_csv := read_csv;
  df_shape := frame_shape;
  df_columns_str := frame_columns_str;
  df_dtypes_str := frame_dtypes_str;
  df_head_to_string := frame_head;
  df_info := frame_info;
  df_describe_to_string := frame_describe
|}.

End InMemory.

(** Worlds to run the handlers on: a sandbox with a text file and a binary
    file, a database with one table, and a cache with one entry; the same
    with the database unreachable; and one without the sandbox root. *)

Module Sample.

Definition files : gmap (list string) InMemory.node :=
  <[ ["app"; "data"; "logo.bin"] := InMemory.File [xff; xd8] ]>
  (<[ ["app"; "data"; "notes.txt"] := InMemory.File [x68; x69] ]>
  (<[ ["app"; "data"] := InMemory.Dir ]>
  (<[ ["app"] := InMemory.Dir ]> ∅))).

Definition users : InMemory.table :=
  InMemory.mkTable "users" "BASE TABLE" ["id"; "name"]
    [[VInt 1; VStr "ann"]; [VInt 2; VStr "bob"]].

Definition world : World (C := InMemory.collaborators) :=
  mkWorld (C := InMemory.collaborators) files (InMemory.mkDatabase true [users])
    (<["greeting" := "hello"]> ∅) [].

Definition world_db_down : World (C := InMemory.collaborators) :=
  mkWorld (C := InMemory.collaborators) files (InMemory.mkDatabase false [users]) ∅ [].

Definition world_no_root : World (C := InMemory.collaborators) :=
  mkWorld (C := InMemory.collaborators) ∅ (InMemory.mkDatabase true [users]) ∅ [].

(** A text with a carriage return in it, and the same with a line feed in
    its place. *)
Definition cr_text : string := String "x" (String TextIO.CR "y").
Definition lf_text : string := String "x" (String TextIO.LF "y").

(** Argument mappings. *)
Definition write_args (content : string) : gmap string value :=
  <["path" := VStr "a.txt"]> (<["content" := VStr content]> ∅).

Definition key_args (k : string) : gmap string value := <["key" := VStr k]> ∅.

Definition query_args (q : string) : gmap string value := <["query" := VStr q]> ∅.

Definition analyze_args (t : string) : gmap string value :=
  <["file_path" := VStr "notes.txt"]> (<["analysis_type" := VStr t]> ∅).

(** The descriptor of the binary file of [files]. *)
Definition logo : Resource :=
  mkResource "file:///app/data/logo.bin" "logo.bin" "File: logo.bin"
    "application/octet-stream".

End Sample.

(** * Properties *)

(** ** Facts about strings *)

Lemma app_String a s t : String a s +:+ t = String a (s +:+ t).
Proof. reflexivity. Qed.

Lemma app_assoc_str s t u : (s +:+ t) +:+ u = s +:+ t +:+ u.
Proof. induction s as [|a s IH]; [reflexivity|]. rewrite !app_String. by rewrite IH. Qed.

Lemma app_empty_r s : s +:+ "" = s.
Proof. induction s as [|a s IH]; [reflexivity|]. rewrite app_String. by rewrite IH. Qed.

Lemma occurs_in_suffix pre x : Str.occurs_in x (pre +:+ x).
Proof. exists pre, "". by rewrite app_empty_r. Qed.

Lemma startswith_app pre s : Str.startswith pre (pre +:+ s) = true.
Proof. unfold Str.startswith. induction pre as [|a pre IH]; simpl.
  - by destruct s.
  - destruct (ascii_dec a a); [exact IH|congruence]. Qed.

Lemma drop_app pre s : Str.drop (String.length pre) (pre +:+ s) = s.
Proof. induction pre as [|a pre IH]; simpl; [by destruct s|exact IH]. Qed.

Lemma split_no_sep c s : Forall (fun x => Str.contains_char c x = false) (Str.split c s).
Proof.
  induction s as [|a s IH]; simpl.
  - repeat constructor.
  - destruct (Ascii.eqb a c) eqn:Hac.
    + constructor; [reflexivity|exact IH].
    + destruct (Str.split c s) as [|w ws]; [repeat constructor; simpl; by rewrite Hac|].
      inversion IH; subst. constructor; [simpl; by rewrite Hac|assumption].
Qed.

Lemma split_sep_free c x : Str.contains_char c x = false -> Str.split c x = [x].
Proof.
  induction x as [|a x IH]; simpl; [reflexivity|].
  intros [Ha Hx]%orb_false_elim. rewrite Ha, (IH Hx). reflexivity.
Qed.

Lemma split_app_sep c x t :
  Str.contains_char c x = false -> Str.split c (x +:+ String c t) = x :: Str.split c t.
Proof.
  induction x as [|a x IH]; simpl.
  - intros _. by rewrite Ascii.eqb_refl.
  - intros [Ha Hx]%orb_false_elim. rewrite ?app_String. simpl. rewrite Ha, (IH Hx). reflexivity.
Qed.

Lemma split_join c l :
  l <> [] -> Forall (fun x => Str.contains_char c x = false) l ->
  Str.split c (Str.join (String c "") l) = l.
Proof.
  induction l as [|x l IH]; [congruence|]. intros _ Hall.
  inversion Hall as [|? ? Hx Hl]; subst.
  destruct l as [|y l].
  - by apply split_sep_free.
  - change (Str.join (String c "") (x :: y :: l))
      with (x +:+ String c (Str.join (String c "") (y :: l))).
    rewrite split_app_sep by assumption.
    f_equal. apply IH; [discriminate|assumption].
Qed.

Lemma lstrip_leading_0 c s : Str.leading c s = 0 -> Str.lstrip c s = s.
Proof. destruct s as [|a s]; simpl; [reflexivity|]. by destruct (Ascii.eqb a c). Qed.


(** ** Facts about [pathlib] *)

Lemma valid_name_first x :
  valid_name x -> exists a x', x = String a x' /\ Ascii.eqb a sep = false.
Proof.
  intros [Hk Hs]. destruct x as [|a x']; [discriminate|].
  exists a, x'. split; [reflexivity|]. simpl in Hs. by apply orb_false_elim in Hs as [? _].
Qed.

Lemma leading_join ns : Forall valid_name ns -> Str.leading sep (Str.join "/" ns) = 0.
Proof.
  intros Hall. destruct ns as [|n ns]; [reflexivity|].
  inversion Hall as [|? ? Hn _]; subst.
  destruct (valid_name_first _ Hn) as (a & x' & -> & Ha).
  destruct ns; simpl; by rewrite Ha.
Qed.

Lemma filter_keep_valid ns : Forall valid_name ns -> List.filter keep_part ns = ns.
Proof.
  induction 1 as [|n ns [Hk _] _ IH]; simpl; [reflexivity|]. by rewrite Hk, IH.
Qed.

Lemma parse_join ns :
  Forall valid_name ns -> List.filter keep_part (Str.split sep (Str.join "/" ns)) = ns.
Proof.
  intros Hall. destruct ns as [|n ns]; [reflexivity|].
  rewrite split_join; [by apply filter_keep_valid|discriminate|].
  eapply Forall_impl; [exact Hall|]. by intros ? [_ ?].
Qed.

Lemma of_str_wf s : wf (of_str s).
Proof.
  unfold of_str, splitroot.
  assert (Hn : forall rel, Forall valid_name (List.filter keep_part (Str.split sep rel))).
  { intros rel. apply Forall_forall. intros x [Hx Hk]%list_elem_of_In%filter_In.
    split; [exact Hk|].
    pose proof (split_no_sep sep rel) as Hall.
    rewrite Forall_forall in Hall. by apply Hall, list_elem_of_In. }
  destruct (Str.leading sep s) as [|[|[|n]]]; split; simpl; auto.
Qed.

Lemma joinpath_wf p s : wf p -> wf (joinpath p s).
Proof.
  intros [Hr Hn]. unfold joinpath. pose proof (of_str_wf s) as [Hr' Hn'].
  destruct (String.eqb (root (of_str s)) ""); [|by split].
  split; simpl; [exact Hr|]. by apply Forall_app.
Qed.

Lemma of_str_relative t :
  Str.leading sep t = 0 -> of_str t = mkPath "" (List.filter keep_part (Str.split sep t)).
Proof. intros H. unfold of_str, splitroot. by rewrite H. Qed.

Lemma of_str_root1 t :
  Str.leading sep t = 0 ->
  of_str (String sep t) = mkPath "/" (List.filter keep_part (Str.split sep t)).
Proof.
  intros H. unfold of_str, splitroot.
  change (Str.leading sep (String sep t)) with (S (Str.leading sep t)).
  change (Str.lstrip sep (String sep t)) with (Str.lstrip sep t).
  by rewrite H, lstrip_leading_0.
Qed.

Lemma of_str_root2 t :
  Str.leading sep t = 0 ->
  of_str (String sep (String sep t)) = mkPath "//" (List.filter keep_part (Str.split sep t)).
Proof.
  intros H. unfold of_str, splitroot.
  change (Str.leading sep (String sep (String sep t))) with (S (S (Str.leading sep t))).
  change (Str.lstrip sep (String sep (String sep t))) with (Str.lstrip sep t).
  by rewrite H, lstrip_leading_0.
Qed.

Lemma of_str_str p : wf p -> of_str (str p) = p.
Proof.
  destruct p as [r ns]. intros [Hr Hn]. cbn [root names] in Hr, Hn.
  pose proof (leading_join ns Hn) as Hlead.
  unfold str. cbn [root names].
  destruct Hr as [-> | [-> | ->]].
  - destruct ns as [|n ns]; [reflexivity|].
    change ("" +:+ Str.join "/" (n :: ns)) with (Str.join "/" (n :: ns)).
    rewrite of_str_relative by assumption. by rewrite parse_join.
  - change ("/" +:+ Str.join "/" ns) with (String sep (Str.join "/" ns)).
    rewrite of_str_root1 by assumption. by rewrite parse_join.
  - change ("//" +:+ Str.join "/" ns) with (String sep (String sep (Str.join "/" ns))).
    rewrite of_str_root2 by assumption. by rewrite parse_join.
Qed.

Lemma DATA_DIR_wf : wf DATA_DIR.
Proof. apply of_str_wf. Qed.

Lemma relative_to_child rel : relative_to (child DATA_DIR rel) DATA_DIR = Some (mkPath "" rel).
Proof. reflexivity. Qed.

(** ** Facts about text-mode files *)

Lemma translate_out_id s : TextIO.translate_out s = s.
Proof.
  induction s as [|a s IH]; simpl; [reflexivity|].
  destruct (Ascii.eqb a TextIO.LF) eqn:Ha.
  - apply Ascii.eqb_eq in Ha as ->. unfold TextIO.linesep. by rewrite IH.
  - by rewrite IH.
Qed.

Lemma universal_newlines_id s :
  Str.contains_char TextIO.CR s = false -> TextIO.universal_newlines s = s.
Proof.
  induction s as [|a s IH]; simpl; [reflexivity|].
  intros [Ha Hs]%orb_false_elim. rewrite Ha. by rewrite IH.
Qed.

Section Properties.

Context {C : Collaborators}.

Local Open Scope handler_scope.

Lemma list_file_resources_run w :
  exists files,
    list_file_resources w = (inr files, w)
    /\ Forall (fun r => Str.startswith "file://" (uri r) = true) files.
Proof.
  unfold list_file_resources, bind, get_world.
  destruct (fs_exists DATA_DIR (w_fs w)); [|by exists []].
  assert (H : forall rels acc,
    Forall (fun r => Str.startswith "file://" (uri r) = true) acc ->
    exists files,
      for_each rels
        (fun rel resources =>
           let file_path := child DATA_DIR rel in
           if fs_is_file file_path (w_fs w)
           then r <- file_resource file_path ;; ret (resources ++ [r])
           else ret resources) acc w = (inr files, w)
      /\ Forall (fun r => Str.startswith "file://" (uri r) = true) files).
  { induction rels as [|rel rels IH]; intros acc Hacc; simpl.
    - by exists acc.
    - unfold bind at 1. destruct (fs_is_file (child DATA_DIR rel) (w_fs w)).
      + unfold file_resource. rewrite relative_to_child. unfold bind, ret.
        apply IH. apply Forall_app. split; [exact Hacc|]. by repeat constructor.
      + unfold ret. by apply IH. }
  by apply H.
Qed.


Lemma table_resource_uri row :
  Str.startswith "db://table/" (uri (table_resource row)) = true
  /\ Str.startswith "file://" (uri (table_resource row)) = false.
Proof. destruct row as [n t]. split; [apply startswith_app|reflexivity]. Qed.

(** Claim C6. When database introspection fails, because the connection
    cannot be opened or because the query on it raises, [handle_list_resources]
    still returns: its result is exactly the list the file enumeration
    produced, every entry of it a [file://] descriptor, and the only change to
    the world is one warning appended to the log, carrying the exception's
    message. *)
Theorem list_resources_survives_database_failure (w : World) (e : backend_exn) :
  (db_connect (w_db w) = inl e
   \/ exists conn, db_connect (w_db w) = inr conn /\ db_tables conn = inl e) ->
  exists files,
    list_file_resources w = (inr files, w)
    /\ handle_list_resources w
       = (inr files, with_log w ("WARNING", "Could not list database tables: " +:+ be_msg e))
    /\ Forall (fun r => Str.startswith "file://" (uri r) = true) files.
Proof.
  intros Hfail. destruct (list_file_resources_run w) as (files & Hrun & Hfiles).
  exists files. split; [exact Hrun|]. split; [|exact Hfiles].
  unfold handle_list_resources, bind at 1. rewrite Hrun.
  unfold try_except, list_table_resources, bind, get_world, backend.
  destruct Hfail as [Hc | (conn & Hc & Ht)]; rewrite Hc; [reflexivity|].
  cbn. by rewrite Ht.
Qed.

(** Claim C10. If the sandbox root does not exist, [handle_list_resources]
    returns, the file system is left as it was, and the catalog has no
    [file://] descriptor: when introspection succeeds the catalog is exactly
    the table descriptors introspection yields, in its order, and nothing is
    logged; when the connection or the query fails the catalog is empty. *)
Theorem list_resources_without_root (w : World) :
  fs_exists DATA_DIR (w_fs w) = false ->
  exists rs w',
    handle_list_resources w = (inr rs, w')
    /\ Forall (fun r => Str.startswith "file://" (uri r) = false) rs
    /\ w_fs w' = w_fs w
    /\ (forall conn tables,
          db_connect (w_db w) = inr conn -> db_tables conn = inr tables ->
          rs = map table_resource tables /\ w' = with_db w (db_close conn))
    /\ (forall e, db_connect (w_db w) = inl e -> rs = [])
    /\ (forall conn e,
          db_connect (w_db w) = inr conn -> db_tables conn = inl e -> rs = []).
Proof.
  intros Hroot.
  unfold handle_list_resources, list_file_resources, bind at 1, bind at 1, get_world.
  rewrite Hroot. unfold ret at 1.
  unfold try_except, list_table_resources, bind, get_world, backend.
  destruct (db_connect (w_db w)) as [e|conn] eqn:Hc; cbn.
  - eexists _, _. split; [reflexivity|]. split; [constructor|].
    split; [reflexivity|]. split; [|split]; [discriminate|reflexivity|discriminate].
  - destruct (db_tables conn) as [e|tables] eqn:Ht; cbn.
    + eexists _, _. split; [reflexivity|]. split; [constructor|].
      split; [reflexivity|]. split; [|split].
      * intros conn0 tables0 [= <-]. by rewrite Ht.
      * discriminate.
      * reflexivity.
    + eexists _, _. split; [reflexivity|]. split; [|split; [reflexivity|split; [|split]]].
      * apply Forall_forall. intros r (row & -> & _)%list_elem_of_fmap.
        apply table_resource_uri.
      * intros conn0 tables0 [= <-]. rewrite Ht. by intros [= <-].
      * discriminate.
      * intros conn0 e [= <-]. by rewrite Ht.
Qed.

(** Claim C8. A [uri] that starts with neither ["file://"] nor
    ["db://table/"] makes [handle_read_resource] raise [UnsupportedScheme uri],
    the [ValueError] of line 127; no string is returned and the world is left
    as it was. *)
Theorem read_resource_unsupported_scheme (uri : string) (w : World) :
  Str.startswith "file://" uri = false ->
  Str.startswith "db://table/" uri = false ->
  handle_read_resource uri w = (inl (UnsupportedScheme uri), w)
  /\ exn_class (UnsupportedScheme uri) = "ValueError"
  /\ exn_str (UnsupportedScheme uri) = "Unsupported URI scheme: " +:+ uri.
Proof. intros Hf Hd. unfold handle_read_resource. by rewrite Hf, Hd. Qed.

(** Claim C7. [cache_get] with a key [k]: when the cache holds [v] under [k]
    the call returns one text block whose text contains [v]; when [k] is
    absent it returns the text [Cache key 'k' not found] instead of raising.
    In both cases the world is unchanged. The only exception the call can end
    with is one the cache client itself raised on the lookup. *)
Theorem cache_get_held_or_absent (arguments : gmap string value) (k : string) (w : World) :
  arguments !! "key" = Some (VStr k) ->
  (forall v, redis_get (VStr k) (w_cache w) = inr (Some v) ->
     handle_call_tool "cache_get" arguments w
       = (inr (one_text ("Cache value for '" +:+ k +:+ "': " +:+ v)), w)
     /\ Str.occurs_in v ("Cache value for '" +:+ k +:+ "': " +:+ v))
  /\ (redis_get (VStr k) (w_cache w) = inr None ->
      handle_call_tool "cache_get" arguments w
        = (inr (one_text ("Cache key '" +:+ k +:+ "' not found")), w))
  /\ (forall e, fst (handle_call_tool "cache_get" arguments w) = inl e ->
      exists b, e = BackendFailure b /\ redis_get (VStr k) (w_cache w) = inl b).
Proof.
  intros Hkey.
  assert (Hrun : handle_call_tool "cache_get" arguments w
    = match redis_get (VStr k) (w_cache w) with
      | inr None => (inr (one_text ("Cache key '" +:+ k +:+ "' not found")), w)
      | inr (Some v) => (inr (one_text ("Cache value for '" +:+ k +:+ "': " +:+ v)), w)
      | inl b => (inl (BackendFailure b), w)
      end).
  { unfold handle_call_tool. cbn [String.eqb Ascii.eqb Bool.eqb].
    unfold tool_cache_get, arg, bind, get_world, backend. rewrite Hkey. cbn.
    destruct (redis_get (VStr k) (w_cache w)) as [b|[v|]]; cbn;
      by rewrite ?py_str_VStr. }
  rewrite Hrun. repeat split.
  - by rewrite H.
  - rewrite <- !app_assoc_str. apply occurs_in_suffix.
  - intros ->. reflexivity.
  - intros e. destruct (redis_get (VStr k) (w_cache w)) as [b|[v|]]; cbn; try discriminate.
    intros [= <-]. by exists b.
Qed.


(** *** What a run can end with *)

Definition outcome {A} (m : M A) (P : A -> Prop) (E : exn -> Prop) : Prop :=
  forall w, match fst (m w) with inr a => P a | inl e => E e end.

Lemma outcome_ret {A} (a : A) (P : A -> Prop) E : P a -> outcome (ret a) P E.
Proof. intros H w. exact H. Qed.

Lemma outcome_raise {A} e (P : A -> Prop) (E : exn -> Prop) : E e -> outcome (raise e) P E.
Proof. intros H w. exact H. Qed.

Lemma outcome_bind {A B} (m : M A) (k : A -> M B) (P : B -> Prop) E :
  outcome m (fun _ => True) E -> (forall a, outcome (k a) P E) -> outcome (bind m k) P E.
Proof.
  intros Hm Hk w. unfold bind. specialize (Hm w).
  destruct (m w) as [[e|a] w']; [exact Hm|apply Hk].
Qed.

Lemma outcome_try_except {A} (m : M A) h (P : A -> Prop) E :
  outcome m P (fun _ => True) -> (forall e, outcome (h e) P E) -> outcome (try_except m h) P E.
Proof.
  intros Hm Hh w. unfold try_except. specialize (Hm w).
  destruct (m w) as [[e|a] w']; [apply Hh|exact Hm].
Qed.

Lemma outcome_weaken {A} (m : M A) (P : A -> Prop) (E E' : exn -> Prop) :
  (forall e, E e -> E' e) -> outcome m P E -> outcome m P E'.
Proof. intros HE Hm w. specialize (Hm w). destruct (fst (m w)); auto. Qed.

(** The exceptions a tool lets through: a missing argument, an operand of
    the wrong type, a failure of a collaborator. *)
Definition propagated (e : exn) : Prop :=
  match e with
  | KeyError _ | TypeError _ | BackendFailure _ => True
  | _ => False
  end.

Definition is_one_text (r : list TextContent) : Prop := exists t, r = [mkTextContent t].

Lemma outcome_backend {A} (r : backend_exn + A) (E : exn -> Prop) :
  (forall b, E (BackendFailure b)) -> outcome (backend r) (fun _ => True) E.
Proof. intros HE w. destruct r; [apply HE|exact I]. Qed.

Lemma outcome_arg arguments key (E : exn -> Prop) :
  (forall k, E (KeyError k)) -> outcome (arg arguments key) (fun _ => True) E.
Proof. intros HE w. unfold arg. destruct (arguments !! key); [exact I|apply HE]. Qed.

Lemma outcome_truediv p v (E : exn -> Prop) :
  (forall m, E (TypeError m)) -> outcome (truediv p v) (fun _ => True) E.
Proof. intros HE w. destruct v; first [exact I|apply HE]. Qed.

Ltac outcome_step :=
  first
    [ apply outcome_ret; first [exact I | by eexists]
    | apply outcome_raise; exact I
    | apply outcome_backend; intros; exact I
    | apply outcome_arg; intros; exact I
    | apply outcome_truediv; intros; exact I
    | apply outcome_bind; [|intros ?]
    | intros ?; exact I
    | match goal with
      | |- outcome (match ?x with _ => _ end) _ _ => destruct x
      | |- outcome (let _ := _ in _) _ _ => cbv zeta
      end ].

Lemma outcome_write_text p content :
  outcome (write_text p content) (fun _ => True) propagated.
Proof. unfold write_text, get_world, put_fs. repeat outcome_step. Qed.

Lemma outcome_write_file arguments :
  outcome (tool_write_file arguments) is_one_text propagated.
Proof.
  unfold tool_write_file, get_world, put_fs.
  repeat first [apply outcome_write_text | outcome_step].
Qed.

Lemma outcome_execute_sql arguments :
  outcome (tool_execute_sql arguments) is_one_text propagated.
Proof. unfold tool_execute_sql, get_world, put_db. repeat outcome_step. Qed.

Lemma outcome_cache_set arguments :
  outcome (tool_cache_set arguments) is_one_text propagated.
Proof. unfold tool_cache_set, get_world, put_cache. repeat outcome_step. Qed.

Lemma outcome_cache_get arguments :
  outcome (tool_cache_get arguments) is_one_text propagated.
Proof. unfold tool_cache_get, get_world. repeat outcome_step. Qed.

Lemma outcome_list_directory arguments :
  outcome (tool_list_directory arguments) is_one_text propagated.
Proof. unfold tool_list_directory, get_world. repeat outcome_step. Qed.

Lemma outcome_analyze_data arguments :
  outcome (tool_analyze_data arguments) is_one_text propagated.
Proof.
  unfold tool_analyze_data, get_world. repeat outcome_step.
  apply outcome_try_except; [|intros e; outcome_step].
  unfold analysis. repeat outcome_step.
Qed.

Lemma call_tool_unknown name arguments w :
  ~ In name tool_names -> handle_call_tool name arguments w = (inl (UnknownTool name), w).
Proof.
  intros Hn. unfold handle_call_tool.
  repeat match goal with
  | |- context [String.eqb name ?s] =>
      destruct (String.eqb_spec name s) as [->|_]; [exfalso; apply Hn; simpl; tauto|]
  end.
  reflexivity.
Qed.

Lemma outcome_call_tool name arguments :
  outcome (handle_call_tool name arguments) is_one_text
    (fun e => propagated e \/ (e = UnknownTool name /\ ~ In name tool_names)).
Proof.
  destruct (decide (In name tool_names)) as [Hin|Hn].
  - apply outcome_weaken with (E := propagated); [by left|].
    simpl in Hin.
    destruct Hin as [<-|[<-|[<-|[<-|[<-|[<-|[]]]]]]]; unfold handle_call_tool; simpl.
    + apply outcome_write_file.
    + apply outcome_execute_sql.
    + apply outcome_cache_set.
    + apply outcome_cache_get.
    + apply outcome_list_directory.
    + apply outcome_analyze_data.
  - intros w. rewrite call_tool_unknown by assumption. right. by split.
Qed.


(** Claim C4. Whatever the tool name and the arguments, a call of
    [handle_call_tool] that returns gives exactly one text block; a failure
    the tool reports is the text of that block. *)
Theorem call_tool_returns_one_text (name : string) (arguments : gmap string value)
    (w w' : World) (r : list TextContent) :
  handle_call_tool name arguments w = (inr r, w') -> exists t, r = [mkTextContent t].
Proof.
  intros Hrun. pose proof (outcome_call_tool name arguments w) as H.
  rewrite Hrun in H. exact H.
Qed.

(** Claim C1, amended. [handle_call_tool] raises [UnknownTool] exactly when
    the name is not one of the six names of the catalog. A call with a
    registered name returns one text block (a success or a failure reported
    as text) or ends with a propagated exception that is not [UnknownTool]: a
    [KeyError] for a missing argument, a [TypeError] for an operand of the
    wrong type, or the [BackendFailure] of a collaborator. *)
Theorem call_tool_unknown_tool_iff (name : string) (arguments : gmap string value)
    (w : World) :
  ((exists n, fst (handle_call_tool name arguments w) = inl (UnknownTool n))
   <-> ~ In name tool_names)
  /\ (In name tool_names ->
      match fst (handle_call_tool name arguments w) with
      | inr blocks => is_one_text blocks
      | inl e => propagated e
      end).
Proof.
  pose proof (outcome_call_tool name arguments w) as H.
  split; [split|].
  - intros [n Hn]. rewrite Hn in H. destruct H as [[]|[_ ?]]. assumption.
  - intros Hn. exists name. by rewrite call_tool_unknown.
  - intros Hin. destruct (fst (handle_call_tool name arguments w)) as [e|r]; [|exact H].
    destruct H as [?|[_ ?]]; [assumption|contradiction].
Qed.

(** Claim C9. For a file that exists under the sandbox root and an
    [analysis_type] string that is none of [summary], [head], [info] and
    [describe], [analyze_data] returns one text block that starts with
    [Error analyzing data: ]: the message is the reader's when [pd.read_csv]
    raises, and otherwise that of the [UnboundLocalError] for [result]. The
    call does not raise and the world is unchanged. *)
Theorem analyze_data_unmatched_type (arguments : gmap string value) (p t : string)
    (w : World) :
  arguments !! "file_path" = Some (VStr p) ->
  arguments !! "analysis_type" = Some (VStr t) ->
  ~ In t ["summary"; "head"; "info"; "describe"] ->
  fs_exists (joinpath DATA_DIR p) (w_fs w) = true ->
  handle_call_tool "analyze_data" arguments w
  = (inr (one_text ("Error analyzing data: "
                      +:+ match pd_read_csv (joinpath DATA_DIR p) (w_fs w) with
                          | inl e => be_msg e
                          | inr _ => unbound_local_msg "result"
                          end)), w).
Proof.
  intros Hp Ht Hnot Hex.
  assert (Hne : forall s, In s ["summary"; "head"; "info"; "describe"] -> eq_str (VStr t) s = false).
  { intros s Hs. apply String.eqb_neq. intros ->. by apply Hnot. }
  unfold handle_call_tool. cbn [String.eqb Ascii.eqb Bool.eqb].
  unfold tool_analyze_data, arg_get, arg, bind, truediv, get_world, ret.
  rewrite Hp, Ht. cbn -[joinpath DATA_DIR]. rewrite Hex. cbn -[joinpath DATA_DIR].
  unfold try_except, bind, backend.
  destruct (pd_read_csv (joinpath DATA_DIR p) (w_fs w)) as [e|df]; [reflexivity|].
  unfold ret, analysis. rewrite !Hne by (simpl; tauto). reflexivity.
Qed.


Lemma write_file_inv (arguments : gmap string value) (p c : string) (w w' : World)
    (r : list TextContent) :
  arguments !! "path" = Some (VStr p) ->
  arguments !! "content" = Some (VStr c) ->
  handle_call_tool "write_file" arguments w = (inr r, w') ->
  exists s1 data s2,
    fs_mkdir_parents (parent (joinpath DATA_DIR p)) (w_fs w) = inr s1
    /\ encode c = inr data
    /\ fs_write (joinpath DATA_DIR p) data s1 = inr s2
    /\ w' = with_fs w s2
    /\ r = one_text ("Successfully wrote " +:+ pretty (String.length c)
                      +:+ " characters to " +:+ p).
Proof.
  intros Hp Hc. unfold handle_call_tool. cbn [String.eqb Ascii.eqb Bool.eqb].
  unfold tool_write_file, write_text, arg, truediv, bind, get_world, put_fs, backend, ret, raise.
  unfold with_fs.
  rewrite Hp, Hc, translate_out_id, py_str_VStr.
  destruct (fs_mkdir_parents (parent (joinpath DATA_DIR p)) (w_fs w)) as [e|s1] eqn:Hmk;
    [discriminate|].
  cbn [w_fs w_db w_cache w_log].
  destruct (encode c) as [e|data] eqn:Henc.
  - destruct (fs_write (joinpath DATA_DIR p) [] s1); discriminate.
  - destruct (fs_write (joinpath DATA_DIR p) data s1) as [e|s2] eqn:Hwr; [discriminate|].
    intros [= <- <-]. by exists s1, data, s2.
Qed.

(** Claim C2, amended. After a [write_file] call with path [p] and content
    [c] that returns, reading [file://] followed by [str(DATA_DIR / p)] gives
    [c] with every CR LF pair and every lone CR turned into a line feed, hence
    exactly [c] when [c] holds no carriage return; whatever the file held
    before is gone. The confirmation reports [len(c)], and the parent of the
    file is a directory. *)
Theorem write_file_then_read_resource (arguments : gmap string value) (p c : string)
    (w w' : World) (r : list TextContent) :
  arguments !! "path" = Some (VStr p) ->
  arguments !! "content" = Some (VStr c) ->
  handle_call_tool "write_file" arguments w = (inr r, w') ->
  handle_read_resource ("file://" +:+ str (joinpath DATA_DIR p)) w'
    = (inr (TextIO.universal_newlines c), w')
  /\ (Str.contains_char TextIO.CR c = false ->
      handle_read_resource ("file://" +:+ str (joinpath DATA_DIR p)) w' = (inr c, w'))
  /\ r = one_text ("Successfully wrote " +:+ pretty (String.length c)
                    +:+ " characters to " +:+ p)
  /\ fs_is_dir (parent (joinpath DATA_DIR p)) (w_fs w') = true.
Proof.
  intros Hp Hc Hrun.
  destruct (write_file_inv _ _ _ _ _ _ Hp Hc Hrun) as (s1 & data & s2 & Hmk & Henc & Hwr & -> & ->).
  assert (Hread : handle_read_resource ("file://" +:+ str (joinpath DATA_DIR p)) (with_fs w s2)
                  = (inr (TextIO.universal_newlines c), with_fs w s2)).
  2: { split; [exact Hread|]. split; [|split; [reflexivity|]].
       - intros Hcr. by rewrite Hread, universal_newlines_id.
       - cbn [with_fs w_fs]. eapply fs_write_is_dir; [exact Hwr|].
         eapply fs_mkdir_is_dir, Hmk. }
  - unfold handle_read_resource. rewrite startswith_app.
    unfold read_file_resource.
    change (Str.drop 7 ("file://" +:+ str (joinpath DATA_DIR p)))
      with (str (joinpath DATA_DIR p)).
    rewrite of_str_str by apply joinpath_wf, DATA_DIR_wf.
    unfold read_text, bind, get_world, backend, ret. cbn [with_fs w_fs].
    rewrite (fs_write_exists _ _ _ _ Hwr). cbn beta iota delta [negb with_fs w_fs].
    rewrite (fs_write_read _ _ _ _ Hwr), (decode_encode _ _ Henc). reflexivity.
Qed.

Lemma dict_set_keys k v d k' :
  In k' (dict_keys (dict_set k v d)) <-> k' = k \/ In k' (dict_keys d).
Proof.
  induction d as [|[k0 v0] d IH]; simpl.
  - intuition.
  - destruct (String.eqb_spec k0 k) as [->|Hne]; simpl; [intuition|].
    rewrite IH. intuition.
Qed.

Lemma dict_of_pairs_keys l k :
  In k (dict_keys (dict_of_pairs l)) <-> In k (map fst l).
Proof.
  unfold dict_of_pairs.
  assert (H : forall d, In k (dict_keys (fold_left (fun d kv => dict_set (fst kv) (snd kv) d) l d))
                        <-> In k (map fst l) \/ In k (dict_keys d)).
  { induction l as [|[k0 v0] l IH]; intros d; simpl; [intuition|].
    rewrite IH, dict_set_keys. intuition. }
  rewrite H. simpl. intuition.
Qed.

Lemma map_fst_combine (cols : list string) : forall vals : list value,
  length vals = length cols -> map fst (combine cols vals) = cols.
Proof.
  induction cols as [|c cols IH]; intros [|v vals] Hlen; simpl in *; try discriminate.
  - reflexivity.
  - f_equal. apply IH. lia.
Qed.

Lemma real_dict_row_keys cols vals k :
  length vals = length cols ->
  In k (dict_keys (real_dict_row cols vals)) <-> In k cols.
Proof.
  intros Hlen. unfold real_dict_row. rewrite dict_of_pairs_keys.
  by rewrite map_fst_combine.
Qed.

Lemma execute_sql_run (arguments : gmap string value) (q : value) (w : World)
    (conn conn1 : Conn) (cur : Cursor) :
  arguments !! "query" = Some q ->
  db_connect (w_db w) = inr conn ->
  db_execute q (arg_get arguments "parameters" (VList [])) conn = inr (cur, conn1) ->
  handle_call_tool "execute_sql" arguments w
  = (if description_truthy cur
     then (put_db (db_close conn1) ;;
           ret (one_text (json_dumps (VList (fetchall_dicts cur)))))
     else match db_commit conn1 with
          | inr conn2 =>
              put_db (db_close conn2) ;;
              ret (one_text ("Query executed successfully. Rows affected: "
                               +:+ pretty (cur_rowcount cur)))
          | inl e => put_db (db_close conn1) ;; raise (BackendFailure e)
          end) w.
Proof.
  intros Hq Hc Hx. unfold handle_call_tool. cbn [String.eqb Ascii.eqb Bool.eqb].
  unfold tool_execute_sql, arg, bind at 1. rewrite Hq. unfold ret at 1.
  unfold bind at 1, get_world. unfold bind at 1, backend at 1. rewrite Hc.
  unfold ret at 1. rewrite Hx. reflexivity.
Qed.

(** Claim C5. [execute_sql] passes the query to the database with the
    [parameters] argument, which is the empty list when absent (a call without
    it is the call with [parameters = []]). When the statement yields rows
    (the cursor has a description) the result text is the JSON dump of the
    list of row objects, each keyed by exactly the columns of the cursor, and
    nothing is committed; otherwise the transaction is committed and the text
    reports [cur.rowcount]. The connection is closed either way. *)
Theorem execute_sql_rows_or_commit (arguments : gmap string value) (q : value)
    (w : World) (conn conn1 : Conn) (cur : Cursor) :
  arguments !! "query" = Some q ->
  db_connect (w_db w) = inr conn ->
  db_execute q (arg_get arguments "parameters" (VList [])) conn = inr (cur, conn1) ->
  (arguments !! "parameters" = None ->
     handle_call_tool "execute_sql" arguments w
     = handle_call_tool "execute_sql" (<["parameters" := VList []]> arguments) w)
  /\ (description_truthy cur = true ->
      handle_call_tool "execute_sql" arguments w
        = (inr (one_text (json_dumps (VList (fetchall_dicts cur)))),
           with_db w (db_close conn1))
      /\ Forall (fun row => exists d, row = VDict d
                    /\ forall k, In k (dict_keys d) <-> In k (cursor_columns cur))
           (fetchall_dicts cur))
  /\ (description_truthy cur = false ->
      forall conn2, db_commit conn1 = inr conn2 ->
      handle_call_tool "execute_sql" arguments w
        = (inr (one_text ("Query executed successfully. Rows affected: "
                            +:+ pretty (cur_rowcount cur))),
           with_db w (db_close conn2))).
Proof.
  intros Hq Hc Hx. pose proof (execute_sql_run _ _ _ _ _ _ Hq Hc Hx) as Hrun.
  split; [|split].
  - intros Hnone. rewrite Hrun. symmetry.
    apply execute_sql_run with (q := q) (conn := conn).
    + by rewrite lookup_insert_ne.
    + exact Hc.
    + unfold arg_get in *. rewrite lookup_insert_eq. by rewrite Hnone in Hx.
  - intros Ht. rewrite Hrun, Ht. split; [reflexivity|].
    pose proof (db_execute_wf _ _ _ _ _ Hx) as Hwf.
    unfold fetchall_dicts. apply Forall_fmap.
    eapply Forall_impl; [exact Hwf|]. intros vals Hlen. simpl.
    eexists. split; [reflexivity|]. intros k. by apply real_dict_row_keys.
  - intros Hf conn2 Hcommit. rewrite Hrun, Hf, Hcommit. reflexivity.
Qed.

End Properties.

(** ** The properties at concrete inputs *)

Section Runs.

Local Abbreviation IM := InMemory.collaborators.

(** Claim C1 as stated fails: [write_file] is a registered name, and called
    without arguments it ends with the [KeyError] of [arguments["path"]], not
    with a text block. *)
Lemma registered_call_can_raise :
  ~ (forall (name : string) (arguments : gmap string value) (w : World (C := IM)),
       In name tool_names ->
       exists blocks, fst (handle_call_tool name arguments w) = inr blocks).
Proof.
  intros H. destruct (H "write_file" ∅ Sample.world) as [blocks Hb].
  - simpl. tauto.
  - vm_compute in Hb. discriminate.
Qed.

(** Claim C2 as stated fails: writing a text with a carriage return
    succeeds, and reading the file back gives a line feed in its place. *)
Lemma write_then_read_loses_carriage_return :
  fst (handle_call_tool (C := IM) "write_file" (Sample.write_args Sample.cr_text) Sample.world)
    = inr (one_text "Successfully wrote 3 characters to a.txt")
  /\ fst (handle_read_resource (C := IM) ("file://" +:+ str (joinpath DATA_DIR "a.txt"))
            (snd (handle_call_tool (C := IM) "write_file"
                    (Sample.write_args Sample.cr_text) Sample.world)))
     = inr Sample.lf_text
  /\ Sample.lf_text <> Sample.cr_text.
Proof. vm_compute. repeat split; discriminate. Qed.

(** Claim C3 fails on the code: the catalog of [Sample.world] lists the
    binary file [logo.bin], with the mime type the listing gives to files
    that are not text, and reading the listed URI in the world the listing
    left raises the codec's [UnicodeDecodeError]. *)
Theorem listed_binary_file_cannot_be_read :
  fst (handle_list_resources (C := IM) Sample.world)
    = inr [mkResource "file:///app/data/notes.txt" "notes.txt" "File: notes.txt" "text/plain";
           Sample.logo;
           mkResource "db://table/users" "users" "Database base table: users"
             "application/x-sql"]
  /\ fst (handle_read_resource (C := IM) (uri Sample.logo)
            (snd (handle_list_resources (C := IM) Sample.world)))
     = inl (BackendFailure
              (BackendExn "UnicodeDecodeError" "'ascii' codec can't decode byte")).
Proof. vm_compute. split; reflexivity. Qed.

(** Claim C4 at a [cache_get] call on [Sample.world]. *)
Lemma call_tool_returns_one_text_witness :
  handle_call_tool (C := IM) "cache_get" (Sample.key_args "greeting") Sample.world
    = (inr (one_text "Cache value for 'greeting': hello"), Sample.world)
  /\ exists t, one_text "Cache value for 'greeting': hello" = [mkTextContent t].
Proof.
  assert (Hrun : handle_call_tool (C := IM) "cache_get" (Sample.key_args "greeting") Sample.world
                 = (inr (one_text "Cache value for 'greeting': hello"), Sample.world))
    by (vm_compute; reflexivity).
  split; [exact Hrun|].
  exact (call_tool_returns_one_text _ _ _ _ _ Hrun).
Defined.

(** Claim C2, amended, at a write of [hi] to [a.txt] in [Sample.world]. *)
Lemma write_file_then_read_resource_witness :
  handle_read_resource (C := IM) ("file://" +:+ str (joinpath DATA_DIR "a.txt"))
      (snd (handle_call_tool (C := IM) "write_file" (Sample.write_args "hi") Sample.world))
    = (inr "hi",
       snd (handle_call_tool (C := IM) "write_file" (Sample.write_args "hi") Sample.world))
  /\ fst (handle_call_tool (C := IM) "write_file" (Sample.write_args "hi") Sample.world)
     = inr (one_text "Successfully wrote 2 characters to a.txt").
Proof.
  assert (Hrun : handle_call_tool (C := IM) "write_file" (Sample.write_args "hi") Sample.world
                 = (inr (one_text "Successfully wrote 2 characters to a.txt"),
                    snd (handle_call_tool (C := IM) "write_file"
                           (Sample.write_args "hi") Sample.world)))
    by (vm_compute; reflexivity).
  destruct (write_file_then_read_resource (C := IM) (Sample.write_args "hi") "a.txt" "hi"
              Sample.world _ _ eq_refl eq_refl Hrun) as (Hread & _ & _ & _).
  split; [exact Hread|]. by rewrite Hrun.
Defined.

(** Claim C5 at a [SELECT] and at a [DELETE] on the table of [Sample.world]. *)
Lemma execute_sql_rows_or_commit_witness :
  handle_call_tool (C := IM) "execute_sql"
      (Sample.query_args "SELECT * FROM users LIMIT 100") Sample.world
    = (inr (one_text (@json_dumps IM
                        (VList [VDict [("id", VInt 1); ("name", VStr "ann")];
                                VDict [("id", VInt 2); ("name", VStr "bob")]]))),
       Sample.world)
  /\ fst (handle_call_tool (C := IM) "execute_sql"
            (Sample.query_args "DELETE FROM users") Sample.world)
     = inr (one_text "Query executed successfully. Rows affected: 2").
Proof.
  split.
  - destruct (execute_sql_rows_or_commit (C := IM)
                (Sample.query_args "SELECT * FROM users LIMIT 100") _ Sample.world
                _ _ _ eq_refl eq_refl eq_refl) as (_ & Hrows & _).
    exact (proj1 (Hrows eq_refl)).
  - destruct (execute_sql_rows_or_commit (C := IM)
                (Sample.query_args "DELETE FROM users") _ Sample.world
                _ _ _ eq_refl eq_refl eq_refl) as (_ & _ & Hcommit).
    by rewrite (Hcommit eq_refl _ eq_refl).
Defined.

(** Claim C6 at [Sample.world_db_down], whose database refuses connections. *)
Lemma list_resources_survives_database_failure_witness :
  @db_connect IM (w_db Sample.world_db_down)
    = inl (BackendExn "OperationalError" "could not connect to server")
  /\ exists files,
       list_file_resources Sample.world_db_down = (inr files, Sample.world_db_down)
       /\ handle_list_resources Sample.world_db_down
          = (inr files,
             with_log Sample.world_db_down
               ("WARNING", "Could not list database tables: could not connect to server"))
       /\ Forall (fun r => Str.startswith "file://" (uri r) = true) files.
Proof.
  split; [reflexivity|].
  apply (list_resources_survives_database_failure (C := IM) Sample.world_db_down
           (BackendExn "OperationalError" "could not connect to server")).
  left. reflexivity.
Defined.

(** Claim C7 at a key the cache of [Sample.world] holds and at one it lacks. *)
Lemma cache_get_held_or_absent_witness :
  handle_call_tool (C := IM) "cache_get" (Sample.key_args "greeting") Sample.world
    = (inr (one_text "Cache value for 'greeting': hello"), Sample.world)
  /\ handle_call_tool (C := IM) "cache_get" (Sample.key_args "missing") Sample.world
     = (inr (one_text "Cache key 'missing' not found"), Sample.world).
Proof.
  split.
  - destruct (cache_get_held_or_absent (C := IM) (Sample.key_args "greeting") "greeting"
                Sample.world eq_refl) as (Hheld & _).
    exact (proj1 (Hheld "hello" eq_refl)).
  - destruct (cache_get_held_or_absent (C := IM) (Sample.key_args "missing") "missing"
                Sample.world eq_refl) as (_ & Habsent & _).
    exact (Habsent eq_refl).
Defined.

(** Claim C8 at an [http://] URI. *)
Lemma read_resource_unsupported_scheme_witness :
  handle_read_resource (C := IM) "http://example.org/x" Sample.world
    = (inl (UnsupportedScheme "http://example.org/x"), Sample.world).
Proof.
  exact (proj1 (read_resource_unsupported_scheme (C := IM) "http://example.org/x"
                  Sample.world eq_refl eq_refl)).
Defined.

(** Claim C9 at the analysis type [median] on [notes.txt]. *)
Lemma analyze_data_unmatched_type_witness :
  @fs_exists IM (joinpath DATA_DIR "notes.txt") (w_fs Sample.world) = true
  /\ handle_call_tool (C := IM) "analyze_data" (Sample.analyze_args "median") Sample.world
     = (inr (one_text ("Error analyzing data: " +:+ @unbound_local_msg IM "result")),
        Sample.world).
Proof.
  split; [reflexivity|].
  apply (analyze_data_unmatched_type (C := IM) (Sample.analyze_args "median") "notes.txt"
           "median" Sample.world); [reflexivity|reflexivity| |reflexivity].
  simpl. intros [H|[H|[H|[H|[]]]]]; discriminate.
Defined.

(** Claim C10 at [Sample.world_no_root], whose file tree is empty. *)
Lemma list_resources_without_root_witness :
  @fs_exists IM DATA_DIR (w_fs Sample.world_no_root) = false
  /\ exists rs w',
       handle_list_resources Sample.world_no_root = (inr rs, w')
       /\ Forall (fun r => Str.startswith "file://" (uri r) = false) rs
       /\ w_fs w' = w_fs Sample.world_no_root
       /\ (forall conn tables,
             db_connect (w_db Sample.world_no_root) = inr conn ->
             db_tables conn = inr tables ->
             rs = map table_resource tables
             /\ w' = with_db Sample.world_no_root (@db_close IM conn))
       /\ (forall e, @db_connect IM (w_db Sample.world_no_root) = inl e -> rs = [])
       /\ (forall conn e,
             db_connect (w_db Sample.world_no_root) = inr conn ->
             @db_tables IM conn = inl e -> rs = []).
Proof.
  split; [reflexivity|].
  exact (list_resources_without_root (C := IM) Sample.world_no_root eq_refl).
Defined.

End Runs.

(** * Further properties of the handlers *)

(** ** Which part of the world a run can change *)

Record footprint := mkFootprint {
  may_fs : bool;
  may_db : bool;
  may_cache : bool;
  may_log : bool
}.

Definition read_only : footprint := mkFootprint false false false false.

(** The footprint of a tool: [write_file] writes files, [execute_sql] the
    database, [cache_set] the cache; no tool logs. *)
Definition tool_footprint (name : string) : footprint :=
  mkFootprint (String.eqb name "write_file") (String.eqb name "execute_sql")
    (String.eqb name "cache_set") false.

Section Further.

Context {C : Collaborators}.

Local Open Scope handler_scope.

Definition within (f : footprint) (w w' : World) : Prop :=
  (may_fs f = false -> w_fs w' = w_fs w)
  /\ (may_db f = false -> w_db w' = w_db w)
  /\ (may_cache f = false -> w_cache w' = w_cache w)
  /\ (may_log f = false -> w_log w' = w_log w).

Definition confined {A} (f : footprint) (m : M A) : Prop :=
  forall w, within f w (snd (m w)).

Lemma within_refl f w : within f w w.
Proof. by repeat split. Qed.

Lemma within_trans f w1 w2 w3 : within f w1 w2 -> within f w2 w3 -> within f w1 w3.
Proof.
  intros (Hf1 & Hd1 & Hc1 & Hl1) (Hf2 & Hd2 & Hc2 & Hl2).
  repeat split; intros H.
  - by rewrite Hf2, Hf1.
  - by rewrite Hd2, Hd1.
  - by rewrite Hc2, Hc1.
  - by rewrite Hl2, Hl1.
Qed.

Lemma within_read_only w w' : within read_only w w' -> w' = w.
Proof.
  intros (Hf & Hd & Hc & Hl). destruct w, w'. simpl in *.
  by rewrite Hf, Hd, Hc, Hl.
Qed.

Lemma confined_ret {A} f (a : A) : confined f (ret a).
Proof. intros w. apply within_refl. Qed.

Lemma confined_raise {A} f e : confined f (raise (A := A) e).
Proof. intros w. apply within_refl. Qed.

Lemma confined_get_world f : confined f get_world.
Proof. intros w. apply within_refl. Qed.

Lemma confined_backend {A} f (r : backend_exn + A) : confined f (backend r).
Proof. intros w. destruct r; apply within_refl. Qed.

Lemma confined_arg f arguments key : confined f (arg arguments key).
Proof. intros w. unfold arg. destruct (arguments !! key); apply within_refl. Qed.

Lemma confined_truediv f p v : confined f (truediv p v).
Proof. intros w. destruct v; apply within_refl. Qed.

Lemma confined_bind {A B} f (m : M A) (k : A -> M B) :
  confined f m -> (forall a, confined f (k a)) -> confined f (bind m k).
Proof.
  intros Hm Hk w. unfold bind. specialize (Hm w).
  destruct (m w) as [[e|a] w']; [exact Hm|].
  eapply within_trans; [exact Hm|apply Hk].
Qed.

Lemma confined_try_except {A} f (m : M A) h :
  confined f m -> (forall e, confined f (h e)) -> confined f (try_except m h).
Proof.
  intros Hm Hh w. unfold try_except. specialize (Hm w).
  destruct (m w) as [[e|a] w']; [|exact Hm].
  eapply within_trans; [exact Hm|apply Hh].
Qed.

Lemma confined_put_fs f s : may_fs f = true -> confined f (put_fs s).
Proof. intros Hf w. repeat split; intros; simpl; congruence. Qed.

Lemma confined_put_db f d : may_db f = true -> confined f (put_db d).
Proof. intros Hf w. repeat split; intros; simpl; congruence. Qed.

Lemma confined_put_cache f c : may_cache f = true -> confined f (put_cache c).
Proof. intros Hf w. repeat split; intros; simpl; congruence. Qed.

Lemma confined_log_warning f msg : may_log f = true -> confined f (log_warning msg).
Proof. intros Hf w. repeat split; intros; simpl; congruence. Qed.

Ltac confined_step :=
  first
    [ apply confined_ret
    | apply confined_raise
    | apply confined_get_world
    | apply confined_backend
    | apply confined_arg
    | apply confined_truediv
    | apply confined_put_fs; reflexivity
    | apply confined_put_db; reflexivity
    | apply confined_put_cache; reflexivity
    | apply confined_log_warning; reflexivity
    | apply confined_bind; [|intros ?]
    | apply confined_try_except; [|intros ?]
    | match goal with
      | |- confined _ (match ?x with _ => _ end) => destruct x
      | |- confined _ (let _ := _ in _) => cbv zeta
      end ].

Lemma confined_for_each {A S} f (body : A -> S -> M S) l :
  (forall x acc, confined f (body x acc)) -> forall acc, confined f (for_each l body acc).
Proof.
  intros Hbody. induction l as [|x l IH]; intros acc; simpl; [apply confined_ret|].
  apply confined_bind; [apply Hbody|apply IH].
Qed.

Lemma confined_write_file arguments :
  confined (tool_footprint "write_file") (tool_write_file arguments).
Proof. unfold tool_write_file, write_text. repeat confined_step. Qed.

Lemma confined_execute_sql arguments :
  confined (tool_footprint "execute_sql") (tool_execute_sql arguments).
Proof. unfold tool_execute_sql. repeat confined_step. Qed.

Lemma confined_cache_set arguments :
  confined (tool_footprint "cache_set") (tool_cache_set arguments).
Proof. unfold tool_cache_set. repeat confined_step. Qed.

Lemma confined_cache_get arguments : confined read_only (tool_cache_get arguments).
Proof. unfold tool_cache_get. repeat confined_step. Qed.

Lemma confined_list_directory arguments : confined read_only (tool_list_directory arguments).
Proof. unfold tool_list_directory. repeat confined_step. Qed.

Lemma confined_analyze_data arguments : confined read_only (tool_analyze_data arguments).
Proof. unfold tool_analyze_data, analysis. repeat confined_step. Qed.

(** Each tool stays within its footprint, whether it returns or raises; the
    tools that only read, and an unknown name, leave the world exactly as it
    was. *)
Theorem call_tool_footprint (name : string) (arguments : gmap string value) (w : World) :
  within (tool_footprint name) w (snd (handle_call_tool name arguments w))
  /\ (name <> "write_file" -> name <> "execute_sql" -> name <> "cache_set" ->
      snd (handle_call_tool name arguments w) = w).
Proof.
  assert (H : within (tool_footprint name) w (snd (handle_call_tool name arguments w))).
  { unfold handle_call_tool.
    destruct (String.eqb_spec name "write_file") as [->|_]; [apply confined_write_file|].
    destruct (String.eqb_spec name "execute_sql") as [->|_]; [apply confined_execute_sql|].
    destruct (String.eqb_spec name "cache_set") as [->|_]; [apply confined_cache_set|].
    destruct (String.eqb_spec name "cache_get") as [->|_]; [apply confined_cache_get|].
    destruct (String.eqb_spec name "list_directory") as [->|_];
      [apply confined_list_directory|].
    destruct (String.eqb_spec name "analyze_data") as [->|_];
      [apply confined_analyze_data|].
    apply within_refl. }
  split; [exact H|]. intros H1%String.eqb_neq H2%String.eqb_neq H3%String.eqb_neq.
  unfold tool_footprint in H. rewrite H1, H2, H3 in H. by apply within_read_only.
Qed.

(** [handle_read_resource] writes nothing: the file system, the cache and
    the log are the same after the call, whatever the URI and whether the
    call returns or raises, and a [file://] read leaves the whole world as it
    was. Only a table read touches the database, by closing its connection. *)
Theorem read_resource_footprint (uri : string) (w : World) :
  within (mkFootprint false true false false) w (snd (handle_read_resource uri w))
  /\ (Str.startswith "file://" uri = true -> snd (handle_read_resource uri w) = w).
Proof.
  unfold handle_read_resource. destruct (Str.startswith "file://" uri).
  - assert (H : confined read_only (read_file_resource uri)).
    { unfold read_file_resource, read_text. repeat confined_step. }
    specialize (H w). split; [|intros _; by apply within_read_only].
    apply within_read_only in H. rewrite H. apply within_refl.
  - split; [|discriminate].
    destruct (Str.startswith "db://table/" uri); [|apply within_refl].
    revert w. change (confined (mkFootprint false true false false) (read_table_resource uri)).
    unfold read_table_resource. repeat confined_step.
Qed.

(** [handle_list_resources] writes nothing to the file system or to the
    cache. The log is either left as it was, or the world the call leaves
    differs from the one it started in by a single warning, the one that
    reports the failure of the introspection: a failed listing does not even
    close a connection. *)
Theorem list_resources_footprint (w : World) :
  within (mkFootprint false true false true) w (snd (handle_list_resources w))
  /\ (w_log (snd (handle_list_resources w)) = w_log w
      \/ exists e,
           snd (handle_list_resources w)
           = with_log w ("WARNING", "Could not list database tables: " +:+ be_msg e)).
Proof.
  split.
  - revert w.
    change (confined (mkFootprint false true false true) handle_list_resources).
    unfold handle_list_resources, list_file_resources, list_table_resources.
    unfold file_resource.
    repeat first [ apply confined_for_each; intros ? ? | confined_step ].
  - destruct (list_file_resources_run w) as (files & Hrun & _).
    assert (Hrun' : handle_list_resources w
      = try_except (list_table_resources files)
          (fun e =>
             log_warning ("Could not list database tables: " +:+ exn_str e) ;;
             ret files) w).
    { unfold handle_list_resources, bind at 1. by rewrite Hrun. }
    rewrite Hrun'.
    unfold try_except, list_table_resources, bind, get_world, backend, put_db, ret, raise,
      log_warning.
    destruct (db_connect (w_db w)) as [e|conn]; [right; exists e; reflexivity|].
    destruct (db_tables conn) as [e|tables]; [right; exists e; reflexivity|].
    left. reflexivity.
Qed.

(** When introspection succeeds the catalog is the file descriptors followed
    by one descriptor per table, in the order the database returned them;
    the connection is closed and nothing is logged. *)
Theorem list_resources_files_then_tables (w : World) (conn : Conn)
    (tables : list (string * string)) :
  db_connect (w_db w) = inr conn ->
  db_tables conn = inr tables ->
  exists files,
    list_file_resources w = (inr files, w)
    /\ handle_list_resources w
       = (inr (files ++ map table_resource tables), with_db w (db_close conn)).
Proof.
  intros Hc Ht. destruct (list_file_resources_run w) as (files & Hrun & _).
  exists files. split; [exact Hrun|].
  unfold handle_list_resources, bind at 1. rewrite Hrun.
  unfold try_except, list_table_resources, bind, get_world, backend, put_db, ret.
  rewrite Hc. cbn. rewrite Ht. reflexivity.
Qed.

(** ** The catalog and the dispatcher *)

Lemma catalog_names : map tool_name handle_list_tools = tool_names.
Proof. reflexivity. Qed.

(** The names of the catalog [handle_list_tools] returns are pairwise
    distinct, and they are exactly the names [handle_call_tool] dispatches:
    a call raises [UnknownTool] if and only if its name is not in the
    catalog. *)
Theorem catalog_matches_dispatcher (name : string) (arguments : gmap string value)
    (w : World) :
  NoDup (map tool_name handle_list_tools)
  /\ (In name (map tool_name handle_list_tools)
      <-> fst (handle_call_tool name arguments w) <> inl (UnknownTool name)).
Proof.
  split.
  - rewrite catalog_names. unfold tool_names.
    apply (bool_decide_unpack _). by vm_compute.
  - rewrite catalog_names. split.
    + intros Hin Hrun. pose proof (outcome_call_tool name arguments w) as H.
      rewrite Hrun in H. destruct H as [[]|[_ Hn]]. by apply Hn.
    + intros Hrun. destruct (decide (In name tool_names)) as [Hin|Hn]; [exact Hin|].
      exfalso. apply Hrun. by rewrite call_tool_unknown.
Qed.

Definition not_key_error (e : exn) : Prop :=
  match e with
  | KeyError _ => False
  | _ => True
  end.

Lemma arg_present arguments key v : arguments !! key = Some v -> arg arguments key = ret v.
Proof. intros H. unfold arg. by rewrite H. Qed.

Ltac no_key_step :=
  first
    [ apply outcome_ret; exact I
    | apply outcome_raise; exact I
    | apply outcome_backend; intros; exact I
    | apply outcome_truediv; intros; exact I
    | apply outcome_bind; [|intros ?]
    | apply outcome_try_except; [|intros ?]
    | intros ?; exact I
    | match goal with
      | |- outcome (match ?x with _ => _ end) _ _ => destruct x
      | |- outcome (let _ := _ in _) _ _ => cbv zeta
      end ].

(** A call whose arguments hold every field the tool's schema lists under
    [required] never ends with a [KeyError]. *)
Theorem required_arguments_suffice (t : Tool) (arguments : gmap string value) (w : World) :
  In t handle_list_tools ->
  (forall k, In k (schema_required t) -> is_Some (arguments !! k)) ->
  forall k, fst (handle_call_tool (tool_name t) arguments w) <> inl (KeyError k).
Proof.
  intros Hin Hreq.
  assert (H : outcome (handle_call_tool (tool_name t) arguments) (fun _ => True) not_key_error).
  { simpl in Hin.
    destruct Hin as [<-|[<-|[<-|[<-|[<-|[<-|[]]]]]]]; unfold handle_call_tool; simpl;
      simpl in Hreq.
    - destruct (Hreq "path") as [p Hp]; [tauto|].
      destruct (Hreq "content") as [c Hc]; [tauto|].
      unfold tool_write_file, write_text, get_world, put_fs.
      rewrite (arg_present _ _ _ Hp), (arg_present _ _ _ Hc). repeat no_key_step.
    - destruct (Hreq "query") as [q Hq]; [tauto|].
      unfold tool_execute_sql, get_world, put_db.
      rewrite (arg_present _ _ _ Hq). repeat no_key_step.
    - destruct (Hreq "key") as [key Hkey]; [tauto|].
      destruct (Hreq "value") as [v Hv]; [tauto|].
      unfold tool_cache_set, get_world, put_cache.
      rewrite (arg_present _ _ _ Hkey), (arg_present _ _ _ Hv). repeat no_key_step.
    - destruct (Hreq "key") as [key Hkey]; [tauto|].
      unfold tool_cache_get, get_world.
      rewrite (arg_present _ _ _ Hkey). repeat no_key_step.
    - unfold tool_list_directory, get_world. repeat no_key_step.
    - destruct (Hreq "file_path") as [p Hp]; [tauto|].
      unfold tool_analyze_data, analysis, get_world.
      rewrite (arg_present _ _ _ Hp). repeat no_key_step. }
  intros k Hrun. specialize (H w). by rewrite Hrun in H.
Qed.

(** A call that lacks a field the tool's schema lists under [required] ends
    with the [KeyError] of a required field it lacks, before any collaborator
    is touched: the world is unchanged. *)
Theorem missing_required_argument (t : Tool) (arguments : gmap string value)
    (k : string) (w : World) :
  In t handle_list_tools ->
  In k (schema_required t) ->
  arguments !! k = None ->
  exists k',
    In k' (schema_required t) /\ arguments !! k' = None
    /\ handle_call_tool (tool_name t) arguments w = (inl (KeyError k'), w).
Proof.
  intros Hin Hk Hnone. simpl in Hin.
  destruct Hin as [<-|[<-|[<-|[<-|[<-|[<-|[]]]]]]]; simpl in Hk; unfold handle_call_tool; simpl.
  - unfold tool_write_file, arg, bind, ret, raise.
    destruct (arguments !! "path") as [p|] eqn:Hp.
    + destruct Hk as [<-|[<-|[]]]; [congruence|]. rewrite Hnone.
      exists "content". simpl. auto.
    + exists "path". simpl. auto.
  - unfold tool_execute_sql, arg, bind, ret, raise.
    destruct Hk as [<-|[]]. rewrite Hnone. exists "query". simpl. auto.
  - unfold tool_cache_set, arg, bind, ret, raise.
    destruct (arguments !! "key") as [key|] eqn:Hkey.
    + destruct Hk as [<-|[<-|[]]]; [congruence|]. rewrite Hnone.
      exists "value". simpl. auto.
    + exists "key". simpl. auto.
  - unfold tool_cache_get, arg, bind, ret, raise.
    destruct Hk as [<-|[]]. rewrite Hnone. exists "key". simpl. auto.
  - destruct Hk.
  - unfold tool_analyze_data, arg, bind, ret, raise.
    destruct Hk as [<-|[]]. rewrite Hnone. exists "file_path". simpl. auto.
Qed.

Lemma arg_insert_ne arguments k v key :
  k <> key -> arg (<[k := v]> arguments) key = arg arguments key.
Proof. intros Hne. unfold arg. by rewrite lookup_insert_ne. Qed.

Lemma arg_get_insert_ne arguments k v key dflt :
  k <> key -> arg_get (<[k := v]> arguments) key dflt = arg_get arguments key dflt.
Proof. intros Hne. unfold arg_get. by rewrite lookup_insert_ne. Qed.

Lemma arg_get_insert_default arguments key dflt :
  arguments !! key = None -> arg_get (<[key := dflt]> arguments) key dflt = arg_get arguments key dflt.
Proof. intros Hnone. unfold arg_get. by rewrite lookup_insert_eq, Hnone. Qed.

(** An argument whose name the tool's schema does not declare under
    [properties] is ignored: the call gives the same result and the same
    world with or without it. *)
Theorem undeclared_argument_ignored (t : Tool) (arguments : gmap string value)
    (k : string) (v : value) (w : World) :
  In t handle_list_tools ->
  ~ In k (schema_properties t) ->
  handle_call_tool (tool_name t) (<[k := v]> arguments) w
  = handle_call_tool (tool_name t) arguments w.
Proof.
  intros Hin Hk. simpl in Hin.
  assert (Hne : forall key, In key (schema_properties t) -> k <> key).
  { intros key Hkey ->. by apply Hk. }
  clear Hk.
  destruct Hin as [<-|[<-|[<-|[<-|[<-|[<-|[]]]]]]]; unfold handle_call_tool; simpl.
  - unfold tool_write_file. by rewrite !arg_insert_ne by (apply Hne; simpl; tauto).
  - unfold tool_execute_sql.
    by rewrite arg_insert_ne, arg_get_insert_ne by (apply Hne; simpl; tauto).
  - unfold tool_cache_set.
    by rewrite !arg_insert_ne, arg_get_insert_ne by (apply Hne; simpl; tauto).
  - unfold tool_cache_get. by rewrite arg_insert_ne by (apply Hne; simpl; tauto).
  - unfold tool_list_directory. by rewrite arg_get_insert_ne by (apply Hne; simpl; tauto).
  - unfold tool_analyze_data.
    by rewrite arg_insert_ne, arg_get_insert_ne by (apply Hne; simpl; tauto).
Qed.

(** The defaults the catalog advertises are the ones the handler applies: if
    the schema of a tool gives a property a [default] and the call omits that
    argument, the call behaves as the call with the default filled in. *)
Theorem schema_default_is_applied (t : Tool) (arguments : gmap string value)
    (k : string) (d : value) (w : World) :
  In t handle_list_tools ->
  schema_default t k = Some d ->
  arguments !! k = None ->
  handle_call_tool (tool_name t) arguments w
  = handle_call_tool (tool_name t) (<[k := d]> arguments) w.
Proof.
  intros Hin Hd Hnone. simpl in Hin. unfold schema_default in Hd.
  destruct Hin as [<-|[<-|[<-|[<-|[<-|[<-|[]]]]]]];
    match type of Hd with
    | context [schema_field "properties" ?s] =>
        let x := eval cbv in (schema_field "properties" s) in
        change (schema_field "properties" s) with x in Hd
    end;
    cbn [dict_get] in Hd;
    repeat match type of Hd with
    | context [String.eqb ?s k] =>
        destruct (String.eqb_spec s k) as [<-|?]; [cbv in Hd|]
    end; try discriminate.
  all: injection Hd as <-; unfold handle_call_tool; simpl.
  - unfold tool_cache_set.
    by rewrite !arg_insert_ne, arg_get_insert_default by done.
  - unfold tool_list_directory. by rewrite arg_get_insert_default.
  - unfold tool_analyze_data.
    by rewrite arg_insert_ne, arg_get_insert_default by done.
Qed.

(** ** Listing and reading *)

Definition supported_scheme (u : string) : Prop :=
  Str.startswith "file://" u = true \/ Str.startswith "db://table/" u = true.

Definition not_unsupported_scheme (e : exn) : Prop :=
  match e with
  | UnsupportedScheme _ => False
  | _ => True
  end.

Lemma list_resources_schemes w rs w' :
  handle_list_resources w = (inr rs, w') -> Forall (fun r => supported_scheme (uri r)) rs.
Proof.
  destruct (list_file_resources_run w) as (files & Hrun & Hfiles).
  assert (Hf : Forall (fun r => supported_scheme (uri r)) files).
  { eapply Forall_impl; [exact Hfiles|]. intros r Hr. by left. }
  unfold handle_list_resources, bind at 1. rewrite Hrun.
  unfold try_except, list_table_resources, bind, get_world, backend, put_db, ret, raise,
    log_warning.
  destruct (db_connect (w_db w)) as [e|conn]; [by intros [= <- <-]|].
  destruct (db_tables conn) as [e|tables]; intros [= <- <-]; [exact Hf|].
  apply Forall_app. split; [exact Hf|].
  apply Forall_fmap, Forall_forall. intros row _. right. apply table_resource_uri.
Qed.

Lemma read_resource_dispatched u :
  supported_scheme u -> outcome (handle_read_resource u) (fun _ => True) not_unsupported_scheme.
Proof.
  intros Hu. unfold handle_read_resource.
  destruct (Str.startswith "file://" u) eqn:Hfile.
  - unfold read_file_resource, read_text, get_world. repeat no_key_step.
  - destruct Hu as [Hu|Hu]; [congruence|]. rewrite Hu.
    unfold read_table_resource, get_world, put_db. repeat no_key_step.
Qed.

(** Every descriptor of a catalog carries a URI the reader dispatches: read
    in any world, it never ends with [UnsupportedScheme]. *)
Theorem listed_uri_is_dispatched (w w' w2 : World) (rs : list Resource) (r : Resource) :
  handle_list_resources w = (inr rs, w') ->
  In r rs ->
  supported_scheme (uri r)
  /\ forall u, fst (handle_read_resource (uri r) w2) <> inl (UnsupportedScheme u).
Proof.
  intros Hrun Hin. pose proof (list_resources_schemes _ _ _ Hrun) as Hall.
  rewrite Forall_forall in Hall. specialize (Hall r (proj2 (list_elem_of_In _ _) Hin)).
  split; [exact Hall|]. intros u Hu.
  pose proof (read_resource_dispatched _ Hall w2) as H. by rewrite Hu in H.
Qed.

(** ** [write_file] *)

(** When the content is not a string, or is a string the codec cannot
    encode, [write_file] still creates the directories and opens the file
    before it raises: the call fails and the file is left empty, whatever it
    held before. *)
Theorem write_file_failure_leaves_empty_file (arguments : gmap string value)
    (p : string) (content : value) (w : World) (s1 s2 : FS) :
  arguments !! "path" = Some (VStr p) ->
  arguments !! "content" = Some content ->
  match content with
  | VStr c => exists e, encode c = inl e
  | _ => True
  end ->
  fs_mkdir_parents (parent (joinpath DATA_DIR p)) (w_fs w) = inr s1 ->
  fs_write (joinpath DATA_DIR p) [] s1 = inr s2 ->
  (exists e, handle_call_tool "write_file" arguments w = (inl e, with_fs w s2))
  /\ fs_read (joinpath DATA_DIR p) s2 = inr [].
Proof.
  intros Hp Hc Hbad Hmk Hwr. split; [|by eapply fs_write_read].
  unfold handle_call_tool. cbn [String.eqb Ascii.eqb Bool.eqb].
  unfold tool_write_file, write_text, arg, truediv, bind, get_world, put_fs, backend, ret, raise.
  rewrite Hp, Hc, Hmk. cbn [with_fs w_fs w_db w_cache w_log].
  destruct content as [| | |c| | |]; try (rewrite Hwr; by eexists).
  destruct Hbad as [e He]. rewrite translate_out_id, He, Hwr. by eexists.
Qed.

Lemma startswith_sep_inv p :
  Str.startswith "/" p = true -> exists p', p = String sep p'.
Proof.
  unfold Str.startswith. destruct p as [|a p]; [discriminate|]. cbn [String.prefix].
  destruct (ascii_dec "/" a) as [<-|]; intros H; [by exists p|discriminate].
Qed.

Lemma not_startswith_sep p : Str.startswith "/" p = false -> Str.leading sep p = 0.
Proof.
  unfold Str.startswith. destruct p as [|a p]; [reflexivity|]. cbn [String.prefix Str.leading].
  destruct (ascii_dec "/" a) as [<-|Hne]; [by destruct p|].
  intros _. destruct (Ascii.eqb_spec a sep) as [->|_]; [by destruct Hne|reflexivity].
Qed.

(** The file [write_file] writes is [DATA_DIR / path] as pathlib joins it: a
    path that starts with a slash replaces the sandbox root altogether, so
    the write lands at that absolute path; any other path is appended to the
    root component by component, a [..] included. *)
Theorem write_file_target (arguments : gmap string value) (p c : string)
    (w w' : World) (r : list TextContent) :
  arguments !! "path" = Some (VStr p) ->
  arguments !! "content" = Some (VStr c) ->
  handle_call_tool "write_file" arguments w = (inr r, w') ->
  (exists data, encode c = inr data /\ fs_read (joinpath DATA_DIR p) (w_fs w') = inr data)
  /\ (Str.startswith "/" p = true -> joinpath DATA_DIR p = of_str p)
  /\ (Str.startswith "/" p = false ->
      joinpath DATA_DIR p
      = mkPath "/" (["app"; "data"] ++ List.filter keep_part (Str.split sep p))).
Proof.
  intros Hp Hc Hrun.
  destruct (write_file_inv _ _ _ _ _ _ Hp Hc Hrun) as (s1 & data & s2 & _ & Henc & Hwr & -> & _).
  split; [|split].
  - exists data. split; [exact Henc|]. by eapply fs_write_read.
  - intros (p' & ->)%startswith_sep_inv. unfold joinpath, of_str, splitroot.
    change (Str.leading sep (String sep p')) with (S (Str.leading sep p')).
    by destruct (Str.leading sep p') as [|[|n]].
  - intros Hrel%not_startswith_sep. unfold joinpath.
    rewrite of_str_relative by assumption. reflexivity.
Qed.

(** ** Absence, and what the read-only tools return *)

Lemma run_pair {A} (m : M A) (w : World) : m w = (fst (m w), snd (m w)).
Proof. by destruct (m w). Qed.

Lemma arg_get_present arguments key v dflt :
  arguments !! key = Some v -> arg_get arguments key dflt = v.
Proof. intros H. unfold arg_get. by rewrite H. Qed.

Lemma bind_ret_l {A B} (a : A) (k : A -> M B) : bind (ret a) k = k a.
Proof. reflexivity. Qed.

(** Once the path exists, [analyze_data] can no longer raise, and it never
    changes the world: whatever [analysis_type] is, whatever the reader and
    the methods of the frame do, the call returns one text block. When the
    reader itself fails, the text is [Error analyzing data: ] followed by the
    reader's message. *)
Theorem analyze_data_returns_on_existing_path (arguments : gmap string value) (p : string)
    (w : World) :
  arguments !! "file_path" = Some (VStr p) ->
  fs_exists (joinpath DATA_DIR p) (w_fs w) = true ->
  exists t,
    handle_call_tool "analyze_data" arguments w = (inr (one_text t), w)
    /\ (forall e,
          pd_read_csv (joinpath DATA_DIR p) (w_fs w) = inl e ->
          t = "Error analyzing data: " +:+ be_msg e).
Proof.
  intros Hp Hex.
  assert (Hsnd : snd (handle_call_tool "analyze_data" arguments w) = w).
  { apply within_read_only, confined_analyze_data. }
  assert (Hrun : handle_call_tool "analyze_data" arguments w
    = try_except
        (df <- backend (pd_read_csv (joinpath DATA_DIR p) (w_fs w)) ;;
         result <- analysis (VStr p) (arg_get arguments "analysis_type" (VStr "summary")) df ;;
         match result with
         | Some r => ret (one_text r)
         | None => raise (UnboundLocalError (unbound_local_msg "result"))
         end)
        (fun e => ret (one_text ("Error analyzing data: " +:+ exn_str e))) w).
  { unfold handle_call_tool. cbn [String.eqb Ascii.eqb Bool.eqb].
    unfold tool_analyze_data. rewrite (arg_present _ _ _ Hp), bind_ret_l.
    cbv zeta. cbn [truediv]. rewrite bind_ret_l.
    unfold bind at 1, get_world. by rewrite Hex. }
  assert (Hfst : exists t, fst (handle_call_tool "analyze_data" arguments w) = inr (one_text t)).
  { rewrite Hrun.
    match goal with
    | |- exists t, fst (?m w) = _ =>
        assert (H : outcome m is_one_text (fun _ => False))
    end.
    { apply outcome_try_except; [|intros e; apply outcome_ret; by eexists].
      unfold analysis. repeat no_key_step. all: by eexists. }
    specialize (H w).
    match type of H with
    | match fst ?r with _ => _ end => destruct (fst r) as [e|r']; [destruct H|]
    end.
    destruct H as [t ->]. by exists t. }
  destruct Hfst as [t Ht]. exists t. split.
  - by rewrite (run_pair (handle_call_tool "analyze_data" arguments) w), Ht, Hsnd.
  - intros e He. revert Ht. rewrite Hrun.
    unfold try_except, bind at 1, backend at 1. rewrite He.
    unfold raise, ret. cbn [fst exn_str]. by intros [= <-].
Qed.

(** The same missing path is reported in two ways: reading it as a resource
    is a hard [NotFound] error, while [analyze_data] and [list_directory]
    return a text that says so. None of the three changes the world. *)
Theorem absence_hard_for_reads_soft_for_tools (p : string) (w : World)
    (analyze_args list_args : gmap string value) :
  fs_exists (joinpath DATA_DIR p) (w_fs w) = false ->
  analyze_args !! "file_path" = Some (VStr p) ->
  list_args !! "path" = Some (VStr p) ->
  handle_read_resource ("file://" +:+ str (joinpath DATA_DIR p)) w
    = (inl (NotFound (str (joinpath DATA_DIR p))), w)
  /\ handle_call_tool "analyze_data" analyze_args w
     = (inr (one_text ("File not found: " +:+ p)), w)
  /\ handle_call_tool "list_directory" list_args w
     = (inr (one_text ("Directory not found: " +:+ p)), w).
Proof.
  intros Hex Ha Hl. split; [|split].
  - unfold handle_read_resource. rewrite startswith_app. unfold read_file_resource.
    change (Str.drop 7 ("file://" +:+ str (joinpath DATA_DIR p)))
      with (str (joinpath DATA_DIR p)).
    rewrite of_str_str by apply joinpath_wf, DATA_DIR_wf.
    unfold bind, get_world. cbv beta iota zeta. by rewrite Hex.
  - unfold handle_call_tool. cbn [String.eqb Ascii.eqb Bool.eqb].
    unfold tool_analyze_data, arg, truediv, bind, get_world, ret. rewrite Ha, Hex.
    cbn [negb]. by rewrite py_str_VStr.
  - unfold handle_call_tool. cbn [String.eqb Ascii.eqb Bool.eqb].
    unfold tool_list_directory. rewrite (arg_get_present _ _ _ _ Hl).
    unfold truediv, bind, get_world, ret. cbv beta iota zeta.
    rewrite Hex. cbn [negb]. by rewrite py_str_VStr.
Qed.

(** ** [list_directory] *)

Lemma length_app_str s t : String.length (s +:+ t) = String.length s + String.length t.
Proof. induction s as [|a s IH]; [reflexivity|]. rewrite app_String. simpl. by rewrite IH. Qed.

Lemma length_spaces n : String.length (Str.spaces n) = n.
Proof. induction n as [|n IH]; [reflexivity|]. simpl. by rewrite IH. Qed.

Lemma length_ljust w s : String.length s <= w -> String.length (Str.ljust w s) = w.
Proof. intros H. unfold Str.ljust. rewrite length_app_str, length_spaces. lia. Qed.

Lemma length_rjust w s : String.length s <= w -> String.length (Str.rjust w s) = w.
Proof. intros H. unfold Str.rjust. rewrite length_app_str, length_spaces. lia. Qed.

(** For an existing directory [list_directory] returns the header, a rule of
    thirty dashes and one line per child in the order [iterdir] gives them,
    joined by line feeds, and changes nothing; an [iterdir] that raises (the
    path is a regular file, say) is a hard error, not a text. Each line has
    fixed columns: whenever the size takes at most ten characters, the
    child's name starts at column 21. *)
Theorem list_directory_table (arguments : gmap string value) (p : string) (w : World) :
  arg_get arguments "path" (VStr ".") = VStr p ->
  fs_exists (joinpath DATA_DIR p) (w_fs w) = true ->
  (forall children, fs_iterdir (joinpath DATA_DIR p) (w_fs w) = inr children ->
     handle_call_tool "list_directory" arguments w
     = (inr (one_text
               (Str.join nl
                  ("Type      Size       Name" :: "------------------------------"
                   :: map (fun n => directory_line (w_fs w) (child (joinpath DATA_DIR p) [n]))
                        children))), w))
  /\ (forall e, fs_iterdir (joinpath DATA_DIR p) (w_fs w) = inl e ->
      handle_call_tool "list_directory" arguments w = (inl (BackendFailure e), w))
  /\ (forall item,
        String.length (pretty (fs_size item (w_fs w))) <= 10 ->
        Str.drop 21 (directory_line (w_fs w) item) = name item).
Proof.
  intros Hpath Hex.
  assert (Hrun : handle_call_tool "list_directory" arguments w
    = (children <- backend (fs_iterdir (joinpath DATA_DIR p) (w_fs w)) ;;
       ret (one_text
              (Str.join nl
                 (["Type      Size       Name"] ++ ["------------------------------"]
                  ++ map (fun n => directory_line (w_fs w) (child (joinpath DATA_DIR p) [n]))
                       children)))) w).
  { unfold handle_call_tool. cbn [String.eqb Ascii.eqb Bool.eqb].
    unfold tool_list_directory. rewrite Hpath. cbn [truediv]. rewrite bind_ret_l.
    unfold bind at 1, get_world. by rewrite Hex. }
  rewrite Hrun. unfold bind, backend, ret, raise. split; [|split].
  - by intros children ->.
  - by intros e ->.
  - intros item Hsize. unfold directory_line.
    set (ty := if fs_is_dir item (w_fs w) then "directory" else "file").
    set (sz := if fs_is_file item (w_fs w) then pretty (fs_size item (w_fs w)) else "-").
    assert (Hty : String.length (Str.ljust 9 ty) = 9).
    { apply length_ljust. unfold ty. destruct (fs_is_dir item (w_fs w)); simpl; lia. }
    assert (Hsz : String.length (Str.rjust 10 sz) = 10).
    { apply length_rjust. unfold sz. destruct (fs_is_file item (w_fs w)); simpl; lia. }
    rewrite <- !app_assoc_str.
    replace 21 with (String.length (((Str.ljust 9 ty +:+ " ") +:+ Str.rjust 10 sz) +:+ " ")).
    + apply drop_app.
    + rewrite !length_app_str, Hty, Hsz. reflexivity.
Qed.

(** ** [execute_sql] and table reads: failures and the connection *)

(** [execute_sql] closes its connection on every path. A failing [connect]
    propagates with the world untouched; a failing [execute] propagates after
    the connection is closed; a failing [commit] propagates and the
    connection is closed without the commit having happened. *)
Theorem execute_sql_failures (arguments : gmap string value) (q : value) (w : World) :
  arguments !! "query" = Some q ->
  (forall e, db_connect (w_db w) = inl e ->
     handle_call_tool "execute_sql" arguments w = (inl (BackendFailure e), w))
  /\ (forall conn e,
        db_connect (w_db w) = inr conn ->
        db_execute q (arg_get arguments "parameters" (VList [])) conn = inl e ->
        handle_call_tool "execute_sql" arguments w
        = (inl (BackendFailure e), with_db w (db_close conn)))
  /\ (forall conn cur conn1 e,
        db_connect (w_db w) = inr conn ->
        db_execute q (arg_get arguments "parameters" (VList [])) conn = inr (cur, conn1) ->
        description_truthy cur = false ->
        db_commit conn1 = inl e ->
        handle_call_tool "execute_sql" arguments w
        = (inl (BackendFailure e), with_db w (db_close conn1))).
Proof.
  intros Hq. split; [|split].
  - intros e Hc. unfold handle_call_tool. cbn [String.eqb Ascii.eqb Bool.eqb].
    unfold tool_execute_sql. rewrite (arg_present _ _ _ Hq), bind_ret_l.
    unfold bind, get_world, backend, raise. by rewrite Hc.
  - intros conn e Hc Hx. unfold handle_call_tool. cbn [String.eqb Ascii.eqb Bool.eqb].
    unfold tool_execute_sql. rewrite (arg_present _ _ _ Hq), bind_ret_l.
    unfold bind at 1, get_world. unfold bind at 1, backend at 1. rewrite Hc.
    unfold ret at 1. cbv zeta. by rewrite Hx.
  - intros conn cur conn1 e Hc Hx Hf Hcommit.
    rewrite (execute_sql_run _ _ _ _ _ _ Hq Hc Hx), Hf, Hcommit. reflexivity.
Qed.

(** Reading [db://table/] followed by any text [t] runs the one statement
    [SELECT * FROM t LIMIT 100], with [t] taken verbatim and no parameters.
    If the statement leaves a result set, the call returns the JSON dump of
    its rows; if it leaves none, the unguarded [fetchall] raises
    [ProgrammingError]; if it raises, its exception propagates. On all three
    paths the connection is closed afterwards and nothing is committed. *)
Theorem read_table_resource_select (t : string) (w : World) (conn : Conn) :
  db_connect (w_db w) = inr conn ->
  (forall cur conn',
     db_execute (VStr ("SELECT * FROM " +:+ t +:+ " LIMIT 100")) VNone conn = inr (cur, conn') ->
     is_Some (cur_description cur) ->
     handle_read_resource ("db://table/" +:+ t) w
     = (inr (json_dumps (VList (fetchall_dicts cur))), with_db w (db_close conn')))
  /\ (forall cur conn',
        db_execute (VStr ("SELECT * FROM " +:+ t +:+ " LIMIT 100")) VNone conn
        = inr (cur, conn') ->
        cur_description cur = None ->
        handle_read_resource ("db://table/" +:+ t) w
        = (inl (BackendFailure (BackendExn "ProgrammingError" "no results to fetch")),
           with_db w (db_close conn')))
  /\ (forall e,
        db_execute (VStr ("SELECT * FROM " +:+ t +:+ " LIMIT 100")) VNone conn = inl e ->
        handle_read_resource ("db://table/" +:+ t) w
        = (inl (BackendFailure e), with_db w (db_close conn))).
Proof.
  intros Hc.
  assert (Hrun : handle_read_resource ("db://table/" +:+ t) w
    = match db_execute (VStr ("SELECT * FROM " +:+ t +:+ " LIMIT 100")) VNone conn with
      | inr (cur, conn') =>
          match fetchall cur with
          | inr rows => (put_db (db_close conn') ;; ret (json_dumps (VList rows))) w
          | inl e => (put_db (db_close conn') ;; raise (BackendFailure e)) w
          end
      | inl e => (put_db (db_close conn) ;; raise (BackendFailure e)) w
      end).
  { unfold handle_read_resource.
    change (Str.startswith "file://" ("db://table/" +:+ t)) with false.
    rewrite startswith_app. unfold read_table_resource. cbv zeta.
    change (Str.drop 11 ("db://table/" +:+ t)) with t.
    unfold select_all, bind at 1, get_world. unfold bind at 1, backend at 1. rewrite Hc.
    unfold ret at 1. cbv beta iota.
    destruct (db_execute _ _ conn) as [e|[cur conn']]; [reflexivity|].
    by destruct (fetchall cur). }
  rewrite Hrun. split; [|split].
  - intros cur conn' -> [cols Hcols]. unfold fetchall. by rewrite Hcols.
  - intros cur conn' -> Hnone. unfold fetchall. by rewrite Hnone.
  - by intros e ->.
Qed.

(** ** [cache_set] *)

(** [cache_set] stores the value under the key with the given expiry, 3600
    seconds when [ttl] is absent, and says so; a following [cache_get] of
    that key, when the cache returns what was stored, gives the value back in
    its text. *)
Theorem cache_set_then_get (set_args get_args : gmap string value) (k v : string)
    (w : World) (c' : Cache) :
  set_args !! "key" = Some (VStr k) ->
  set_args !! "value" = Some (VStr v) ->
  redis_setex (VStr k) (arg_get set_args "ttl" (VInt 3600)) (VStr v) (w_cache w) = inr c' ->
  get_args !! "key" = Some (VStr k) ->
  redis_get (VStr k) c' = inr (Some v) ->
  handle_call_tool "cache_set" set_args w
    = (inr (one_text ("Set cache key '" +:+ k +:+ "' with TTL "
                        +:+ py_str (arg_get set_args "ttl" (VInt 3600)) +:+ " seconds")),
       with_cache w c')
  /\ (set_args !! "ttl" = None -> py_str (arg_get set_args "ttl" (VInt 3600)) = "3600")
  /\ handle_call_tool "cache_get" get_args (with_cache w c')
     = (inr (one_text ("Cache value for '" +:+ k +:+ "': " +:+ v)), with_cache w c').
Proof.
  intros Hk Hv Hset Hgk Hget. split; [|split].
  - unfold handle_call_tool. cbn [String.eqb Ascii.eqb Bool.eqb].
    unfold tool_cache_set.
    rewrite (arg_present _ _ _ Hk), bind_ret_l, (arg_present _ _ _ Hv), bind_ret_l.
    cbv zeta. unfold bind, get_world, backend, put_cache, ret. rewrite Hset.
    by rewrite py_str_VStr.
  - intros Hnone. unfold arg_get. rewrite Hnone. cbn [default from_option id].
    rewrite py_str_VInt. by vm_compute.
  - unfold handle_call_tool. cbn [String.eqb Ascii.eqb Bool.eqb].
    unfold tool_cache_get. rewrite (arg_present _ _ _ Hgk), bind_ret_l.
    unfold bind, get_world, backend, ret. cbn [with_cache w_cache]. rewrite Hget.
    by rewrite py_str_VStr.
Qed.

(** ** File descriptors *)

Lemma rfind_app c s t i :
  Str.rfind c t = Some i -> Str.rfind c (s +:+ t) = Some (String.length s + i).
Proof.
  intros Ht. induction s as [|a s IH]; [exact Ht|].
  rewrite app_String. simpl. by rewrite IH.
Qed.

(** The mime type of a listed file follows pathlib's [suffix], compared
    case-sensitively with the three text extensions: a name made of a
    non-empty stem and one of [.txt], [.csv], [.json] is [text/plain], while
    a file whose whole name is one of the three has no suffix and is listed
    as [application/octet-stream]. *)
Theorem mime_type_by_extension (p : Path) (stem ext : string) :
  In ext text_suffixes ->
  name p = stem +:+ ext ->
  (stem <> "" -> suffix p = ext /\ mime_of p = "text/plain")
  /\ (stem = "" -> suffix p = "" /\ mime_of p = "application/octet-stream").
Proof.
  intros Hext Hname. split.
  - intros Hstem.
    assert (Hlen : 0 < String.length stem) by (destruct stem; [congruence|simpl; lia]).
    assert (Hsuf : suffix p = ext).
    { unfold suffix. rewrite Hname.
      assert (Hr : Str.rfind "."%char ext = Some 0 /\ 2 <= String.length ext).
      { simpl in Hext. destruct Hext as [<-|[<-|[<-|[]]]]; split; simpl; first [reflexivity|lia]. }
      destruct Hr as [Hr Hl]. rewrite (rfind_app _ stem _ _ Hr), length_app_str.
      rewrite Nat.add_0_r.
      replace (0 <? String.length stem) with true by (symmetry; apply Nat.ltb_lt; lia).
      replace (String.length stem <? String.length stem + String.length ext - 1) with true
        by (symmetry; apply Nat.ltb_lt; lia).
      apply drop_app. }
    split; [exact Hsuf|]. unfold mime_of. rewrite Hsuf.
    simpl in Hext. by destruct Hext as [<-|[<-|[<-|[]]]].
  - intros ->. change ("" +:+ ext) with ext in Hname.
    unfold mime_of, suffix. rewrite Hname.
    simpl in Hext. by destruct Hext as [<-|[<-|[<-|[]]]].
Qed.

(** The characters a URL keeps in a path exactly as they are written: the
    ASCII letters and digits, [-], [.] and [_]. *)
Definition plain_char (a : ascii) : bool :=
  let n := nat_of_ascii a in
  (Nat.leb 65 n && Nat.leb n 90) || (Nat.leb 97 n && Nat.leb n 122)
  || (Nat.leb 48 n && Nat.leb n 57)
  || Nat.eqb n 45 || Nat.eqb n 46 || Nat.eqb n 95.

Fixpoint all_chars (f : ascii -> bool) (s : string) : bool :=
  match s with
  | EmptyString => true
  | String a s' => f a && all_chars f s'
  end.

(** A file or directory name made of such characters only. *)
Definition plain_name (x : string) : bool :=
  keep_part x && negb (String.eqb x "..") && all_chars plain_char x.

Lemma all_plain_no_sep x : all_chars plain_char x = true -> Str.contains_char sep x = false.
Proof.
  induction x as [|a x IH]; [reflexivity|]. simpl.
  intros [Ha Hx]%andb_prop. rewrite (IH Hx), orb_false_r.
  destruct (Ascii.eqb_spec a sep) as [->|_]; [discriminate Ha|reflexivity].
Qed.

Lemma plain_name_valid x : plain_name x = true -> valid_name x.
Proof.
  unfold plain_name. intros [[Hk _]%andb_prop Hall]%andb_prop.
  split; [exact Hk|by apply all_plain_no_sep].
Qed.

(** The descriptor of a file below the sandbox root identifies it. For
    names made of letters, digits, [-], [.] and [_], which the URL type of
    the descriptor leaves as they are written, the text after [file://]
    parses back to the very path that was listed, so [handle_read_resource]
    opens that file; the display name is the last component and the
    description is [File: ] followed by the path relative to the root. *)
Theorem file_descriptor_identifies_file (rel : list string) (w : World) :
  Forall (fun x => plain_name x = true) rel ->
  rel <> [] ->
  exists r,
    file_resource (child DATA_DIR rel) w = (inr r, w)
    /\ Str.startswith "file://" (uri r) = true
    /\ of_str (Str.drop 7 (uri r)) = child DATA_DIR rel
    /\ res_name r = List.last rel ""
    /\ description r = "File: " +:+ Str.join "/" rel
    /\ mimeType r = mime_of (child DATA_DIR rel).
Proof.
  intros Hplain Hne.
  assert (Hvalid : Forall valid_name rel).
  { eapply Forall_impl; [exact Hplain|]. intros x. apply plain_name_valid. }
  unfold file_resource. rewrite relative_to_child.
  eexists. split; [reflexivity|]. cbn [uri res_name description mimeType].
  split; [apply startswith_app|]. split; [|split; [|split; [|reflexivity]]].
  - change (Str.drop 7 ("file://" +:+ str (child DATA_DIR rel)))
      with (str (child DATA_DIR rel)).
    apply of_str_str. split; [right; by left|].
    change (names (child DATA_DIR rel)) with (["app"; "data"] ++ rel).
    apply Forall_app. split; [|exact Hvalid].
    repeat constructor.
  - unfold name. change (names (child DATA_DIR rel)) with ("app" :: "data" :: rel).
    destruct rel as [|c rel]; [congruence|]. reflexivity.
  - destruct rel as [|c rel]; [congruence|]. reflexivity.
Qed.

(** Reading the [file://] URI of a parsed path that exists returns the bytes
    of the file decoded by the codec, with universal newlines applied, and
    changes nothing; bytes the codec rejects, or a read the file system
    refuses, make the call fail with that exception. *)
Theorem read_file_resource_content (fp : Path) (w : World) :
  wf fp ->
  fs_exists fp (w_fs w) = true ->
  (forall data s,
     fs_read fp (w_fs w) = inr data -> decode data = inr s ->
     handle_read_resource ("file://" +:+ str fp) w = (inr (TextIO.universal_newlines s), w))
  /\ (forall data e,
        fs_read fp (w_fs w) = inr data -> decode data = inl e ->
        handle_read_resource ("file://" +:+ str fp) w = (inl (BackendFailure e), w))
  /\ (forall e,
        fs_read fp (w_fs w) = inl e ->
        handle_read_resource ("file://" +:+ str fp) w = (inl (BackendFailure e), w)).
Proof.
  intros Hwf Hex.
  assert (Hrun : handle_read_resource ("file://" +:+ str fp) w = read_text fp w).
  { unfold handle_read_resource. rewrite startswith_app. unfold read_file_resource.
    change (Str.drop 7 ("file://" +:+ str fp)) with (str fp).
    rewrite of_str_str by assumption.
    unfold bind, get_world. cbv beta iota zeta. by rewrite Hex. }
  rewrite Hrun. unfold read_text, bind, get_world, backend, ret, raise.
  split; [|split].
  - intros data s -> ->. reflexivity.
  - intros data e -> ->. reflexivity.
  - intros e ->. reflexivity.
Qed.

End Further.

(** ** The further properties at concrete inputs *)

Section FurtherRuns.

Local Abbreviation IM := InMemory.collaborators.

(** The catalog's entries for [write_file] and [cache_set]. *)
Definition write_file_tool : Tool := nth 0 handle_list_tools (mkTool "" "" VNone).
Definition cache_set_tool : Tool := nth 2 handle_list_tools (mkTool "" "" VNone).

(** Argument mappings. *)
Definition no_args : gmap string value := ∅.
Definition motd_args : gmap string value :=
  <["path" := VStr "/etc/motd"]> (<["content" := VStr "hi"]> ∅).
Definition number_args : gmap string value :=
  <["path" := VStr "notes.txt"]> (<["content" := VInt 5]> ∅).
Definition kv_args : gmap string value :=
  <["key" := VStr "k"]> (<["value" := VStr "v"]> ∅).
Definition gone_file_args : gmap string value := <["file_path" := VStr "gone.csv"]> ∅.
Definition gone_dir_args : gmap string value := <["path" := VStr "gone.csv"]> ∅.

(** The connection [Sample.world] opens. *)
Definition sample_conn : InMemory.connection :=
  InMemory.mkConnection (w_db Sample.world) (w_db Sample.world).

(** [list_resources_files_then_tables] at a concrete input. *)
Lemma list_resources_files_then_tables_witness :
  exists files,
    list_file_resources Sample.world = (inr files, Sample.world)
    /\ handle_list_resources Sample.world
       = (inr (files ++ map table_resource [("users", "BASE TABLE")]),
          with_db Sample.world (@db_close IM sample_conn)).
Proof.
  exact (list_resources_files_then_tables (C := IM) Sample.world sample_conn
           [("users", "BASE TABLE")] eq_refl eq_refl).
Defined.

(** [required_arguments_suffice] at a concrete input. *)
Lemma required_arguments_suffice_witness :
  (forall k, In k (schema_required write_file_tool) ->
     is_Some (Sample.write_args "hi" !! k))
  /\ fst (handle_call_tool (C := IM) "write_file" (Sample.write_args "hi") Sample.world)
     <> inl (KeyError "path").
Proof.
  assert (Hreq : forall k, In k (schema_required write_file_tool) ->
                           is_Some (Sample.write_args "hi" !! k)).
  { intros k [<-|[<-|[]]]; eexists; vm_compute; reflexivity. }
  split; [exact Hreq|].
  apply (required_arguments_suffice (C := IM) write_file_tool (Sample.write_args "hi")
           Sample.world); [simpl; tauto|exact Hreq].
Defined.

(** [missing_required_argument] at a concrete input. *)
Lemma missing_required_argument_witness :
  exists k',
    In k' (schema_required write_file_tool)
    /\ no_args !! k' = None
    /\ handle_call_tool (C := IM) "write_file" no_args Sample.world
       = (inl (KeyError k'), Sample.world).
Proof.
  apply (missing_required_argument (C := IM) write_file_tool no_args "content" Sample.world);
    [simpl; tauto|simpl; tauto|reflexivity].
Defined.

(** [undeclared_argument_ignored] at a concrete input. *)
Lemma undeclared_argument_ignored_witness :
  ~ In "mode" (schema_properties write_file_tool)
  /\ handle_call_tool (C := IM) "write_file"
       (<["mode" := VStr "append"]> (Sample.write_args "hi")) Sample.world
     = handle_call_tool (C := IM) "write_file" (Sample.write_args "hi") Sample.world.
Proof.
  assert (Hk : ~ In "mode" (schema_properties write_file_tool)).
  { simpl. intros [H|[H|[]]]; discriminate. }
  split; [exact Hk|].
  apply (undeclared_argument_ignored (C := IM) write_file_tool); [simpl; tauto|exact Hk].
Defined.

(** [schema_default_is_applied] at a concrete input. *)
Lemma schema_default_is_applied_witness :
  schema_default cache_set_tool "ttl" = Some (VInt 3600)
  /\ handle_call_tool (C := IM) "cache_set"
       kv_args Sample.world
     = handle_call_tool (C := IM) "cache_set"
         (<["ttl" := VInt 3600]> kv_args)
         Sample.world.
Proof.
  split; [reflexivity|].
  apply (schema_default_is_applied (C := IM) cache_set_tool); [simpl; tauto|reflexivity|].
  vm_compute. reflexivity.
Defined.

(** [listed_uri_is_dispatched] at a concrete input. *)
Lemma listed_uri_is_dispatched_witness :
  In Sample.logo
    [mkResource "file:///app/data/notes.txt" "notes.txt" "File: notes.txt" "text/plain";
     Sample.logo;
     mkResource "db://table/users" "users" "Database base table: users" "application/x-sql"]
  /\ supported_scheme (uri Sample.logo)
  /\ fst (handle_read_resource (C := IM) (uri Sample.logo) Sample.world)
     <> inl (UnsupportedScheme (uri Sample.logo)).
Proof.
  assert (Hrun : handle_list_resources (C := IM) Sample.world
                 = (inr [mkResource "file:///app/data/notes.txt" "notes.txt" "File: notes.txt"
                           "text/plain";
                         Sample.logo;
                         mkResource "db://table/users" "users" "Database base table: users"
                           "application/x-sql"],
                    snd (handle_list_resources (C := IM) Sample.world)))
    by (vm_compute; reflexivity).
  assert (Hin : In Sample.logo
                  [mkResource "file:///app/data/notes.txt" "notes.txt" "File: notes.txt"
                     "text/plain";
                   Sample.logo;
                   mkResource "db://table/users" "users" "Database base table: users"
                     "application/x-sql"]) by (simpl; tauto).
  split; [exact Hin|].
  destruct (listed_uri_is_dispatched (C := IM) Sample.world _ Sample.world _ Sample.logo
              Hrun Hin) as [Hs Hd].
  split; [exact Hs|apply Hd].
Defined.

(** [write_file_failure_leaves_empty_file] at a concrete input. *)
Lemma write_file_failure_leaves_empty_file_witness :
  @fs_read IM (joinpath DATA_DIR "notes.txt") (w_fs Sample.world) = inr [x68; x69]
  /\ exists s2,
       (exists e, handle_call_tool (C := IM) "write_file"
                    number_args Sample.world
                  = (inl e, with_fs Sample.world s2))
       /\ @fs_read IM (joinpath DATA_DIR "notes.txt") s2 = inr [].
Proof.
  split; [reflexivity|]. eexists.
  eapply (write_file_failure_leaves_empty_file (C := IM)
            number_args "notes.txt" (VInt 5)
            Sample.world); [reflexivity|reflexivity|exact I|reflexivity|reflexivity].
Defined.

(** [write_file_target] at a concrete input. *)
Lemma write_file_target_witness :
  (exists data,
     @encode IM "hi" = inr data
     /\ @fs_read IM (joinpath DATA_DIR "/etc/motd")
          (w_fs (snd (handle_call_tool (C := IM) "write_file"
                        motd_args
                        Sample.world)))
        = inr data)
  /\ joinpath DATA_DIR "/etc/motd" = of_str "/etc/motd".
Proof.
  assert (Hrun : handle_call_tool (C := IM) "write_file"
                   motd_args Sample.world
                 = (inr (one_text "Successfully wrote 2 characters to /etc/motd"),
                    snd (handle_call_tool (C := IM) "write_file"
                           motd_args
                           Sample.world)))
    by (vm_compute; reflexivity).
  destruct (write_file_target (C := IM)
              motd_args
              "/etc/motd" "hi" Sample.world _ _ eq_refl eq_refl Hrun)
    as (Hread & Habs & _).
  split; [exact Hread|exact (Habs eq_refl)].
Defined.

(** [analyze_data_returns_on_existing_path] at a concrete input. *)
Lemma analyze_data_returns_on_existing_path_witness :
  exists t,
    handle_call_tool (C := IM) "analyze_data" (Sample.analyze_args "head") Sample.world
      = (inr (one_text t), Sample.world)
    /\ (forall e,
          @pd_read_csv IM (joinpath DATA_DIR "notes.txt") (w_fs Sample.world) = inl e ->
          t = "Error analyzing data: " +:+ be_msg e).
Proof.
  exact (analyze_data_returns_on_existing_path (C := IM) (Sample.analyze_args "head")
           "notes.txt" Sample.world eq_refl eq_refl).
Defined.

(** [absence_hard_for_reads_soft_for_tools] at a concrete input. *)
Lemma absence_hard_for_reads_soft_for_tools_witness :
  handle_read_resource (C := IM) ("file://" +:+ str (joinpath DATA_DIR "gone.csv")) Sample.world
    = (inl (NotFound (str (joinpath DATA_DIR "gone.csv"))), Sample.world)
  /\ handle_call_tool (C := IM) "analyze_data" gone_file_args
       Sample.world
     = (inr (one_text ("File not found: " +:+ "gone.csv")), Sample.world)
  /\ handle_call_tool (C := IM) "list_directory" gone_dir_args
       Sample.world
     = (inr (one_text ("Directory not found: " +:+ "gone.csv")), Sample.world).
Proof.
  exact (absence_hard_for_reads_soft_for_tools (C := IM) "gone.csv" Sample.world
           gone_file_args gone_dir_args
           eq_refl eq_refl eq_refl).
Defined.

(** [list_directory_table] at a concrete input. *)
Lemma list_directory_table_witness :
  @fs_exists IM (joinpath DATA_DIR ".") (w_fs Sample.world) = true
  /\ handle_call_tool (C := IM) "list_directory" no_args Sample.world
     = (inr (one_text
               (Str.join nl
                  ["Type      Size       Name"; "------------------------------";
                   "file               2 notes.txt"; "file               2 logo.bin"])),
        Sample.world).
Proof.
  split; [reflexivity|].
  destruct (list_directory_table (C := IM) no_args "." Sample.world eq_refl eq_refl)
    as (Hlist & _ & _).
  exact (Hlist ["notes.txt"; "logo.bin"] eq_refl).
Defined.

(** [execute_sql_failures] at a concrete input. *)
Lemma execute_sql_failures_witness :
  handle_call_tool (C := IM) "execute_sql" (Sample.query_args "DROP TABLE users") Sample.world
    = (inl (BackendFailure
              (BackendExn "ProgrammingError" "syntax error at or near: DROP TABLE users")),
       Sample.world)
  /\ handle_call_tool (C := IM) "execute_sql" (Sample.query_args "SELECT 1")
       Sample.world_db_down
     = (inl (BackendFailure (BackendExn "OperationalError" "could not connect to server")),
        Sample.world_db_down).
Proof.
  split.
  - destruct (execute_sql_failures (C := IM) (Sample.query_args "DROP TABLE users") _
                Sample.world eq_refl) as (_ & Hexec & _).
    exact (Hexec sample_conn _ eq_refl eq_refl).
  - destruct (execute_sql_failures (C := IM) (Sample.query_args "SELECT 1") _
                Sample.world_db_down eq_refl) as (Hconn & _).
    exact (Hconn _ eq_refl).
Defined.

(** [read_table_resource_select] at a concrete input. *)
Lemma read_table_resource_select_witness :
  handle_read_resource (C := IM) ("db://table/" +:+ "users") Sample.world
  = (inr (@json_dumps IM
            (VList [VDict [("id", VInt 1); ("name", VStr "ann")];
                    VDict [("id", VInt 2); ("name", VStr "bob")]])),
     Sample.world).
Proof.
  destruct (read_table_resource_select (C := IM) "users" Sample.world sample_conn eq_refl)
    as (Hrows & _).
  exact (Hrows _ _ eq_refl (mk_is_Some _ _ eq_refl)).
Defined.

(** [cache_set_then_get] at a concrete input. *)
Lemma cache_set_then_get_witness :
  handle_call_tool (C := IM) "cache_set"
      kv_args Sample.world
    = (inr (one_text "Set cache key 'k' with TTL 3600 seconds"),
       with_cache Sample.world (<["k" := "v"]> (w_cache Sample.world)))
  /\ handle_call_tool (C := IM) "cache_get" (Sample.key_args "k")
       (with_cache Sample.world (<["k" := "v"]> (w_cache Sample.world)))
     = (inr (one_text "Cache value for 'k': v"),
        with_cache Sample.world (<["k" := "v"]> (w_cache Sample.world))).
Proof.
  destruct (cache_set_then_get (C := IM)
              kv_args (Sample.key_args "k")
              "k" "v" Sample.world (<["k" := "v"]> (w_cache Sample.world))
              eq_refl eq_refl eq_refl eq_refl eq_refl) as (Hset & _ & Hget).
  split; [exact Hset|exact Hget].
Defined.

(** [mime_type_by_extension] at a concrete input. *)
Lemma mime_type_by_extension_witness :
  name (joinpath DATA_DIR "notes.txt") = "notes" +:+ ".txt"
  /\ suffix (joinpath DATA_DIR "notes.txt") = ".txt"
  /\ mime_of (joinpath DATA_DIR "notes.txt") = "text/plain".
Proof.
  split; [reflexivity|].
  destruct (mime_type_by_extension (joinpath DATA_DIR "notes.txt") "notes" ".txt")
    as [Hstem _]; [simpl; tauto|reflexivity|].
  apply Hstem. discriminate.
Defined.

(** [file_descriptor_identifies_file] at a concrete input. *)
Lemma file_descriptor_identifies_file_witness :
  exists r,
    file_resource (C := IM) (child DATA_DIR ["reports"; "q1.csv"]) Sample.world
      = (inr r, Sample.world)
    /\ Str.startswith "file://" (uri r) = true
    /\ of_str (Str.drop 7 (uri r)) = child DATA_DIR ["reports"; "q1.csv"]
    /\ res_name r = List.last ["reports"; "q1.csv"] ""
    /\ description r = "File: " +:+ Str.join "/" ["reports"; "q1.csv"]
    /\ mimeType r = mime_of (child DATA_DIR ["reports"; "q1.csv"]).
Proof.
  apply (file_descriptor_identifies_file (C := IM) ["reports"; "q1.csv"] Sample.world);
    [|discriminate].
  repeat constructor.
Defined.

(** [read_file_resource_content] at a concrete input. *)
Lemma read_file_resource_content_witness :
  handle_read_resource (C := IM) ("file://" +:+ str (joinpath DATA_DIR "notes.txt")) Sample.world
    = (inr "hi", Sample.world)
  /\ handle_read_resource (C := IM) ("file://" +:+ str (joinpath DATA_DIR "logo.bin"))
       Sample.world
     = (inl (BackendFailure (BackendExn "UnicodeDecodeError" "'ascii' codec can't decode byte")),
        Sample.world).
Proof.
  split.
  - destruct (read_file_resource_content (C := IM) (joinpath DATA_DIR "notes.txt")
                Sample.world (joinpath_wf _ _ DATA_DIR_wf) eq_refl) as (Hok & _).
    exact (Hok _ _ eq_refl eq_refl).
  - destruct (read_file_resource_content (C := IM) (joinpath DATA_DIR "logo.bin")
                Sample.world (joinpath_wf _ _ DATA_DIR_wf) eq_refl) as (_ & Hbad & _).
    exact (Hbad _ _ eq_refl eq_refl).
Defined.

End FurtherRuns.
